(** * Batch-size and bucket constraints of the Lhotse dataloader

    A shallow embedding of the sampling constraints defined in
    [nemo/collections/common/data/lhotse/dataloader.py]:
    [MultimodalSamplingConstraint], [FixedBucketBatchSizeConstraint2D],
    [MultimodalFixedBucketBatchSizeConstraint2D] and the helper
    [_measure_tokens].

    Conventions.
    - Python numbers (finite floats and ints) are rationals [Q]; [<], [<=]
      and [==] are the boolean comparisons on [Q].  Rounding of float
      division is not modelled: [a / b] is the exact quotient, and raises
      [ZeroDivisionError] when [b] is zero, as Python does.
    - A Python call either returns a value or raises: [result A].
    - Objects mutated in place ([example.num_tokens = ...], the running
      totals of a constraint) are returned as the updated object. *)

From Equations Require Import Equations.
From Stdlib Require Import QArith ZArith List String Bool Arith Lia Lqa.
From Stdlib Require Import Ascii DecimalString.
Import ListNotations.
Local Open Scope Q_scope.

(* ===================================================================== *)
(** ** Exceptions and the result monad *)
(* ===================================================================== *)

Inductive PyExc : Type :=
| IndexError
| TypeError
| ValueError
| ZeroDivisionError
| AttributeError (attr : string)
| AssertionError (msg : string)
| RuntimeError (msg : string).

Inductive result (A : Type) : Type :=
| Ok (a : A)
| Raise (e : PyExc).
Arguments Ok {A} a.
Arguments Raise {A} e.

Definition bind {A B : Type} (m : result A) (k : A -> result B) : result B :=
  match m with
  | Ok a => k a
  | Raise e => Raise e
  end.

Notation "x <- m ;; k" := (bind m (fun x => k))
  (at level 61, m at next level, right associativity).
Notation "' pat <- m ;; k" := (bind m (fun x => match x with pat => k end))
  (at level 61, pat pattern, m at next level, right associativity).

(** [assert cond, msg] *)
Definition py_assert (cond : bool) (msg : string) : result unit :=
  if cond then Ok tt else Raise (AssertionError msg).

(** Short-circuit [a and b] and [a or b] on calls that may raise. *)
Definition py_and (a : result bool) (b : result bool) : result bool :=
  x <- a ;; if x then b else Ok false.

Definition py_or (a : result bool) (b : result bool) : result bool :=
  x <- a ;; if x then Ok true else b.

(* ===================================================================== *)
(** ** Numbers and sequences of numbers *)
(* ===================================================================== *)

Definition Qlt_bool (a b : Q) : bool := negb (Qle_bool b a).

(** [a / b] on numbers. *)
Definition py_truediv (a b : Q) : result Q :=
  if Qeq_bool b 0 then Raise ZeroDivisionError else Ok (a / b).

(** What a bucket boundary or a measured length can be: a number, or a
    sequence (tuple) of numbers. *)
Inductive PyVal : Type :=
| PyNum (q : Q)
| PySeq (l : list Q).

(** Lexicographic [<] on sequences, as Python compares tuples: the first
    position where the items differ decides; a proper prefix is smaller. *)
Fixpoint seq_lt (a b : list Q) : bool :=
  match a, b with
  | _, [] => false
  | [], _ :: _ => true
  | x :: a', y :: b' => if Qeq_bool x y then seq_lt a' b' else Qlt_bool x y
  end.

(** [x < y]; a number and a tuple do not compare. *)
Definition py_lt (x y : PyVal) : result bool :=
  match x, y with
  | PyNum a, PyNum b => Ok (Qlt_bool a b)
  | PySeq a, PySeq b => Ok (seq_lt a b)
  | _, _ => Raise TypeError
  end.

(** [isinstance(v, Sequence)] *)
Definition is_sequence (v : PyVal) : bool :=
  match v with PySeq _ => true | PyNum _ => false end.

(** [len(v)] *)
Definition py_len (v : PyVal) : result nat :=
  match v with
  | PySeq l => Ok (List.length l)
  | PyNum _ => Raise TypeError
  end.

(** [v[i]] for a non-negative [i]. *)
Definition py_item (v : PyVal) (i : nat) : result Q :=
  match v with
  | PySeq l => match nth_error l i with Some q => Ok q | None => Raise IndexError end
  | PyNum _ => Raise TypeError
  end.

(** [a, b = v] *)
Definition py_unpack2 (v : PyVal) : result (Q * Q) :=
  match v with
  | PySeq [a; b] => Ok (a, b)
  | PySeq _ => Raise ValueError
  | PyNum _ => Raise TypeError
  end.

(** [l[i]] on a list, for a non-negative [i]. *)
Definition list_item {A : Type} (l : list A) (i : nat) : result A :=
  match nth_error l i with Some a => Ok a | None => Raise IndexError end.

(* ===================================================================== *)
(** ** [bisect.bisect_right] *)
(* ===================================================================== *)

(** The loop of [bisect_right(a, x)]:
    [while lo < hi: mid = (lo + hi) // 2;
       if x < a[mid]: hi = mid  else: lo = mid + 1]
    and [return lo].  It terminates because [hi - lo] shrinks. *)
Equations? bisect_loop (a : list PyVal) (x : PyVal) (lo hi : nat) : result nat
  by wf (hi - lo)%nat lt :=
  bisect_loop a x lo hi with lt_dec lo hi => {
    | right _ := Ok lo
    | left _ with list_item a (Nat.div2 (lo + hi)) => {
       | Raise e := Raise e
       | Ok am with py_lt x am => {
          | Raise e := Raise e
          | Ok true := bisect_loop a x lo (Nat.div2 (lo + hi))
          | Ok false := bisect_loop a x (S (Nat.div2 (lo + hi))) hi }}}.
Proof.
  all: rewrite Nat.div2_div; pose proof (Nat.div_mod_eq (lo + hi) 2);
    pose proof (Nat.mod_upper_bound (lo + hi) 2); lia.
Qed.

Definition bisect_right (a : list PyVal) (x : PyVal) : result nat :=
  bisect_loop a x 0 (List.length a).

(* ===================================================================== *)
(** ** Examples *)
(* ===================================================================== *)

(** A supervision; [tokens] is present once it has been tokenized. *)
Record Supervision : Type := mkSupervision {
  tokens : option (list Z) }.

(** An audio example.  [num_tokens] and [tokenized_prompted_transcript]
    are attributes set on the cut by earlier pipeline stages, absent until
    then. *)
Record Cut : Type := mkCut {
  duration : Q;
  supervisions : list Supervision;
  num_tokens : option Q;
  tokenized_prompted_transcript : option (list Z) }.

(** An object of any other class, with the attributes the constraints
    look at. *)
Record Object : Type := mkObject {
  type_name : string;
  obj_duration : option Q;
  obj_num_tokens : option Q }.

(** The examples a constraint can be handed.  A text example exposes its
    token count as [num_tokens]. *)
Inductive Example : Type :=
| Audio (c : Cut)
| TextExample (text_num_tokens : Q)
| TextPairExample (pair_num_tokens : Q)
| Other (o : Object).

(** [isinstance(example, Cut)] *)
Definition isinstance_Cut (example : Example) : bool :=
  match example with Audio _ => true | _ => false end.

(** [isinstance(example, (TextExample, TextPairExample))] *)
Definition is_text (example : Example) : bool :=
  match example with TextExample _ | TextPairExample _ => true | _ => false end.

(** [example.duration] *)
Definition get_duration (example : Example) : result Q :=
  match example with
  | Audio c => Ok (duration c)
  | Other {| obj_duration := Some d |} => Ok d
  | _ => Raise (AttributeError "duration")
  end.

(** The [num_tokens] attribute, when the example has one:
    [hasattr(example, "num_tokens")] is [Some _]. *)
Definition getattr_num_tokens (example : Example) : option Q :=
  match example with
  | Audio c => num_tokens c
  | TextExample n => Some n
  | TextPairExample n => Some n
  | Other o => obj_num_tokens o
  end.

(** [example.num_tokens] *)
Definition get_num_tokens (example : Example) : result Q :=
  match getattr_num_tokens example with
  | Some n => Ok n
  | None => Raise (AttributeError "num_tokens")
  end.

(** [example.num_tokens = n] on a cut *)
Definition set_num_tokens (c : Cut) (n : Q) : Cut :=
  {| duration := duration c;
     supervisions := supervisions c;
     num_tokens := Some n;
     tokenized_prompted_transcript := tokenized_prompted_transcript c |}.

(** [type(example)] as an f-string prints it *)
Definition type_repr (example : Example) : string :=
  match example with
  | Audio _ => "<class 'lhotse.cut.Cut'>"
  | TextExample _ => "<class 'lhotse.cut.text.TextExample'>"
  | TextPairExample _ => "<class 'lhotse.cut.text.TextPairExample'>"
  | Other o => "<class '" ++ type_name o ++ "'>"
  end%string.

Definition len_tokens (l : list Z) : Q := inject_Z (Z.of_nat (List.length l)).

(** [[s for s in cut.supervisions if hasattr(s, "tokens")]], kept as the
    token lists *)
Definition supervisions_with_tokens (sups : list Supervision) : list (list Z) :=
  flat_map (fun s => match tokens s with Some t => [t] | None => [] end) sups.

Definition _measure_tokens (cut : Example) : result Q :=
  match cut with
  | Audio c =>
      match tokenized_prompted_transcript c with
      | Some t => Ok (len_tokens t)
      | None =>
          let with_tokens := supervisions_with_tokens (supervisions c) in
          _ <- py_assert (0 <? List.length with_tokens)%nat
                 "Cannot measure tokens-per-second with untokenized supervisions. Did you forget to provide the tokenizer argument to get_lhotse_dataloader_from_config() method?" ;;
          Ok (fold_left Qplus (map len_tokens with_tokens) 0)
      end
  | _ => Raise (AttributeError "supervisions")
  end.

(* ===================================================================== *)
(** ** The token-counting constraint *)
(* ===================================================================== *)

Module TokenConstraint.

(** Modelled from the spec: the class [TokenConstraint] comes from the
    sampling library and its code is not part of this repository.  Its
    state is the running total length, the running example count, a
    configured upper bound on each, and an optional quadratic penalty
    factor (section 4.2). *)
Record t : Type := mk {
  max_tokens : option Q;
  max_examples : option Z;
  quadratic_length : option Q;
  current : Q;
  num_examples : Z }.

(** Modelled from the spec: a fresh constraint has zero running totals. *)
Definition init (max_tokens : option Q) (max_examples : option Z)
    (quadratic_length : option Q) : t :=
  mk max_tokens max_examples quadratic_length 0 0%Z.

(** Modelled from the spec: the length this constraint measures is the
    example's token count, [example.num_tokens] (for an audio example,
    the value cached on it by the caller). *)
Definition measure_length (example : Example) : result Q :=
  get_num_tokens example.

(** Modelled from the spec: the quadratic penalty inflates the cost of
    an example by [length^2 / quadratic_factor] when a factor is
    configured. *)
Definition quadratic_correction (self : t) (size : Q) : result Q :=
  match quadratic_length self with
  | None => Ok size
  | Some qf => p <- py_truediv (size * size) qf ;; Ok (size + p)
  end.

(** Modelled from the spec: [add] measures the example's length, adds it
    to the running total (applying the quadratic penalty if configured)
    and increments the count. *)
Definition add (self : t) (example : Example) : result t :=
  len <- measure_length example ;;
  size <- quadratic_correction self len ;;
  Ok (mk (max_tokens self) (max_examples self) (quadratic_length self)
         (current self + size) (num_examples self + 1)%Z).

(** Modelled from the spec: [exceeded] is true if the running total
    length exceeds the configured maximum, or the running count exceeds
    the configured maximum example count. *)
Definition exceeded (self : t) : bool :=
  match max_tokens self with
  | Some m => Qlt_bool m (current self)
  | None => false
  end
  ||
  match max_examples self with
  | Some k => (k <? num_examples self)%Z
  | None => false
  end.

(** Modelled from the spec: [reset] zeroes all running totals. *)
Definition reset (self : t) : t :=
  mk (max_tokens self) (max_examples self) (quadratic_length self) 0 0%Z.

End TokenConstraint.

(* ===================================================================== *)
(** ** [MultimodalSamplingConstraint] *)
(* ===================================================================== *)

Module MultimodalSamplingConstraint.

Record t : Type := mk {
  token_equivalent_duration : Q;
  batch_size : option Z;
  batch_tokens : option Q;
  quadratic_factor : option Q;
  _internal : TokenConstraint.t }.

(** The dataclass constructor followed by [__post_init__]. *)
Definition init (token_equivalent_duration : Q) (batch_size : option Z)
    (batch_tokens quadratic_factor : option Q) : t :=
  mk token_equivalent_duration batch_size batch_tokens quadratic_factor
     (TokenConstraint.init batch_tokens batch_size quadratic_factor).

Definition set_internal (self : t) (i : TokenConstraint.t) : t :=
  mk (token_equivalent_duration self) (batch_size self) (batch_tokens self)
     (quadratic_factor self) i.

Definition measure_length (self : t) (example : Example) : result Q :=
  match example with
  | Audio c => py_truediv (duration c) (token_equivalent_duration self)
  | TextExample n => Ok n
  | TextPairExample n => Ok n
  | Other _ =>
      Raise (RuntimeError ("Unsupported example type: " ++ type_repr example))
  end.

(** [add] mutates both the example (the cached [num_tokens]) and the
    constraint: it returns the two. *)
Definition add (self : t) (example : Example) : result (t * Example) :=
  example' <-
    match example with
    | Audio c =>
        num_tokens <- measure_length self example ;;
        Ok (Audio (set_num_tokens c num_tokens))
    | _ => Ok example
    end ;;
  i <- TokenConstraint.add (_internal self) example' ;;
  Ok (set_internal self i, example').

Definition exceeded (self : t) : bool :=
  TokenConstraint.exceeded (_internal self).

Definition reset (self : t) : t :=
  set_internal self (TokenConstraint.reset (_internal self)).

(** Successive [add] calls, one per example of the list. *)
Fixpoint add_all (self : t) (examples : list Example) : result t :=
  match examples with
  | [] => Ok self
  | example :: rest =>
      '(self', _) <- add self example ;;
      add_all self' rest
  end.

End MultimodalSamplingConstraint.

(* ===================================================================== *)
(** ** [FixedBucketBatchSizeConstraint2D] *)
(* ===================================================================== *)

Module FixedBucketBatchSizeConstraint2D.

(** The two tables the constraint is built from. *)
Record t : Type := mk {
  max_seq_len_buckets : list PyVal;
  batch_sizes : list Z }.

Definition bucketing_2d_enabled (self : t) : result bool :=
  first <- list_item (max_seq_len_buckets self) 0 ;;
  if is_sequence first then
    n <- py_len first ;; Ok (n =? 2)%nat
  else Ok false.

Definition measure_length (self : t) (example : Example) : result PyVal :=
  b2d <- bucketing_2d_enabled self ;;
  if b2d then
    d <- get_duration example ;;
    n <- _measure_tokens example ;;
    Ok (PySeq [d; n])
  else
    d <- get_duration example ;;
    Ok (PyNum d).

(** The condition of the refinement loop once a next bucket exists:
    [(bin := tbl[next_idx])[0] == bin_dim0
     and (bin_dim1 < example_len[1] <= bin[1] or bin[1] < example_len[1])] *)
Definition refine_cond (tbl : list PyVal) (example_len : PyVal)
    (next_idx : nat) (bin_dim0 bin_dim1 : Q) : result bool :=
  bin <- list_item tbl next_idx ;;
  py_and
    (b0 <- py_item bin 0 ;; Ok (Qeq_bool b0 bin_dim0))
    (py_or
       (e1 <- py_item example_len 1 ;;
        if Qlt_bool bin_dim1 e1 then
          b1 <- py_item bin 1 ;; Ok (Qle_bool e1 b1)
        else Ok false)
       (b1 <- py_item bin 1 ;;
        e1 <- py_item example_len 1 ;;
        Ok (Qlt_bool b1 e1))).

(** The refinement loop:
    [while (next_idx := bucket_idx + 1) < num_buckets and ...:
       bucket_idx = next_idx
       bin_dim0, bin_dim1 = tbl[bucket_idx]]
    and [return bucket_idx].  It terminates because [bucket_idx] grows
    towards [num_buckets]. *)
Equations? refine_loop (tbl : list PyVal) (example_len : PyVal)
    (bucket_idx : nat) (bin_dim0 bin_dim1 : Q) : result nat
  by wf (List.length tbl - bucket_idx)%nat lt :=
  refine_loop tbl example_len bucket_idx bin_dim0 bin_dim1 with lt_dec (S bucket_idx) (List.length tbl) => {
    | right _ := Ok bucket_idx
    | left _ with refine_cond tbl example_len (S bucket_idx) bin_dim0 bin_dim1 => {
       | Raise e := Raise e
       | Ok false := Ok bucket_idx
       | Ok true with bind (list_item tbl (S bucket_idx)) py_unpack2 => {
          | Raise e := Raise e
          | Ok (d0, d1) := refine_loop tbl example_len (S bucket_idx) d0 d1 }}}.
Proof. lia. Qed.

Section Inherited.

(** [super().select_bucket], the method of the one-dimensional policy
    this class extends.  It belongs to the sampling library; it is
    called with the object's own [measure_length]. *)
Variable super_select_bucket :
  (Example -> result PyVal) -> list PyVal -> option Example -> option PyVal
  -> result nat.

Definition select_bucket (self : t) (buckets : list PyVal)
    (example : option Example) (example_len : option PyVal) : result nat :=
  b2d <- bucketing_2d_enabled self ;;
  if negb b2d then
    super_select_bucket (measure_length self) buckets example example_len
  else
    example_len <-
      match example_len, example with
      | Some l, _ => Ok l
      | None, Some e => measure_length self e
      | None, None => Raise (AttributeError "duration")
      end ;;
    bucket_idx <- bisect_right buckets example_len ;;
    '(bin_dim0, bin_dim1) <-
      bind (list_item (max_seq_len_buckets self) bucket_idx) py_unpack2 ;;
    refine_loop (max_seq_len_buckets self) example_len bucket_idx
      bin_dim0 bin_dim1.

End Inherited.

End FixedBucketBatchSizeConstraint2D.

(* ===================================================================== *)
(** ** The one-dimensional policy *)
(* ===================================================================== *)

Module FixedBucketBatchSizeConstraint.

(** Modelled from the spec: the one-dimensional [select_bucket] of the
    sampling library, whose code is not part of this repository.  It
    returns the position [index] in the boundary table such that
    [boundaries[index-1] <= length < boundaries[index]], found by the
    standard binary search over the sorted table (section 4.3); the
    length is measured from the example when it is not given. *)
Definition select_bucket (measure_length : Example -> result PyVal)
    (buckets : list PyVal) (example : option Example)
    (example_len : option PyVal) : result nat :=
  example_len <-
    match example_len, example with
    | Some l, _ => Ok l
    | None, Some e => measure_length e
    | None, None => Raise (AttributeError "duration")
    end ;;
  bisect_right buckets example_len.

End FixedBucketBatchSizeConstraint.

(** [FixedBucketBatchSizeConstraint2D.select_bucket] on top of the
    one-dimensional policy. *)
Definition select_bucket_2d :=
  FixedBucketBatchSizeConstraint2D.select_bucket
    FixedBucketBatchSizeConstraint.select_bucket.

(** Modelled from the spec: the sampler that reads the batch budget is not
    part of this repository.  The effective per-example batch budget is
    [batch_sizes[select_bucket(measure_length(example))]] (section 4.4),
    the table having one entry per boundary; an example beyond the last
    boundary, whose bucket index is the number of boundaries, gets the
    last entry (section 8). *)
Definition batch_budget (self : FixedBucketBatchSizeConstraint2D.t)
    (example : Example) : result Z :=
  len <- FixedBucketBatchSizeConstraint2D.measure_length self example ;;
  idx <- select_bucket_2d self
           (FixedBucketBatchSizeConstraint2D.max_seq_len_buckets self)
           None (Some len) ;;
  let batch_sizes := FixedBucketBatchSizeConstraint2D.batch_sizes self in
  if (idx <? List.length batch_sizes)%nat then list_item batch_sizes idx
  else list_item batch_sizes (List.length batch_sizes - 1).

(* ===================================================================== *)
(** ** [MultimodalFixedBucketBatchSizeConstraint2D] *)
(* ===================================================================== *)

Module MultimodalFixedBucketBatchSizeConstraint2D.

(** The inherited tables and the field the subclass adds. *)
Record t : Type := mk {
  base : FixedBucketBatchSizeConstraint2D.t;
  token_equivalent_duration : option Q }.

Definition measure_length (self : t) (example : Example) : result Q :=
  b2d <- FixedBucketBatchSizeConstraint2D.bucketing_2d_enabled (base self) ;;
  _ <- py_assert (negb b2d)
         "2D bucketing for multimodal sampling is not yet supported." ;;
  match getattr_num_tokens example with
  | Some n => Ok n
  | None =>
      if isinstance_Cut example then
        match token_equivalent_duration self with
        | None =>
            Raise (AssertionError
              "Cannot use MultimodalFixedBucketBatchSizeConstraint with speech data when token_equivalent_duration was not specified.")
        | Some ted =>
            d <- get_duration example ;;
            py_truediv d ted
        end
      else
        Raise (RuntimeError ("Unsupported example type: " ++ type_repr example))
  end.

End MultimodalFixedBucketBatchSizeConstraint2D.

(* ===================================================================== *)
(** ** Running totals of [MultimodalSamplingConstraint] *)
(* ===================================================================== *)

(** The internal constraint was built by [__post_init__] from the fields
    of the constraint: it carries the same bounds and penalty factor. *)
Definition consistent (self : MultimodalSamplingConstraint.t) : Prop :=
  TokenConstraint.max_tokens (MultimodalSamplingConstraint._internal self)
  = MultimodalSamplingConstraint.batch_tokens self
  /\ TokenConstraint.max_examples (MultimodalSamplingConstraint._internal self)
     = MultimodalSamplingConstraint.batch_size self
  /\ TokenConstraint.quadratic_length (MultimodalSamplingConstraint._internal self)
     = MultimodalSamplingConstraint.quadratic_factor self.

(** What one example costs in the running total: its measured length with
    the quadratic penalty applied when a factor is configured. *)
Definition accounted_length (self : MultimodalSamplingConstraint.t)
    (example : Example) : result Q :=
  len <- MultimodalSamplingConstraint.measure_length self example ;;
  TokenConstraint.quadratic_correction
    (MultimodalSamplingConstraint._internal self) len.

(** The running total after adding examples of the given costs, in order. *)
Definition total (sizes : list Q) : Q := fold_left Qplus sizes 0.

(* ===================================================================== *)
(** ** Two-dimensional boundary tables *)
(* ===================================================================== *)

(** A pair [(dim0, dim1)] as the tuple the code handles. *)
Definition pair_val (p : Q * Q) : PyVal := PySeq [fst p; snd p].

(** A boundary table all of whose entries are pairs. *)
Definition table2d (tbl : list (Q * Q)) : list PyVal := map pair_val tbl.

(** [x < b] on pairs, as tuples compare. *)
Definition pair_lt (x b : Q * Q) : bool :=
  seq_lt [fst x; snd x] [fst b; snd b].

(** [sorted(tbl) == tbl]: no entry is smaller than the one before it. *)
Fixpoint sorted_table (tbl : list (Q * Q)) : bool :=
  match tbl with
  | a :: (b :: _) as rest => negb (pair_lt b a) && sorted_table rest
  | _ => true
  end.

(** The bucket [b] can take the example [x]: it lies beyond the point the
    binary search finds for [x], and its second-dimension boundary is at
    least the second dimension of [x]. *)
Definition fits (x b : Q * Q) : bool :=
  pair_lt x b && Qle_bool (snd x) (snd b).

(** The bucket [b] contains the example [x] in both dimensions, boundaries
    included. *)
Definition contains (x b : Q * Q) : bool :=
  Qle_bool (fst x) (fst b) && Qle_bool (snd x) (snd b).

(** The condition under which the refinement loop moves from the current
    bucket [(bin_dim0, bin_dim1)] to the next one, as the code has it. *)
Definition advance_condition (bin_dim0 bin_dim1 : Q) (next : Q * Q)
    (example_dim1 : Q) : bool :=
  Qeq_bool (fst next) bin_dim0
  && ((Qlt_bool bin_dim1 example_dim1 && Qle_bool example_dim1 (snd next))
      || Qlt_bool (snd next) example_dim1).

(** The same condition as the specification words it: the next bucket
    shares the first-dimension boundary, and the example's second dimension
    either falls strictly between the current and the next second-dimension
    boundary, or exceeds the next one. *)
Definition advance_condition_spec (bin_dim0 bin_dim1 : Q) (next : Q * Q)
    (example_dim1 : Q) : bool :=
  Qeq_bool (fst next) bin_dim0
  && ((Qlt_bool bin_dim1 example_dim1 && Qlt_bool example_dim1 (snd next))
      || Qlt_bool (snd next) example_dim1).

(* ===================================================================== *)
(** ** Concrete configurations *)
(* ===================================================================== *)

(** The table of the comment in [select_bucket], as pairs. *)
Definition pairs_2x2 : list (Q * Q) := [(1, 1); (1, 2); (2, 2); (2, 4)].

(** The table of the comment in [select_bucket]. *)
Definition buckets_2x2 : list PyVal :=
  [PySeq [1; 1]; PySeq [1; 2]; PySeq [2; 2]; PySeq [2; 4]].

(** The end-to-end scenario: three one-dimensional boundaries, three
    batch sizes. *)
Definition scenario_1d : FixedBucketBatchSizeConstraint2D.t :=
  FixedBucketBatchSizeConstraint2D.mk
    [PyNum 10; PyNum 20; PyNum 30] [8; 4; 2]%Z.

Definition cut_of_duration (d : Q) : Example :=
  Audio (mkCut d [] None None).

Definition scenario_select (d : Q) : result nat :=
  select_bucket_2d scenario_1d
    (FixedBucketBatchSizeConstraint2D.max_seq_len_buckets scenario_1d)
    (Some (cut_of_duration d)) None.

Definition multimodal_2x2 : MultimodalFixedBucketBatchSizeConstraint2D.t :=
  MultimodalFixedBucketBatchSizeConstraint2D.mk
    (FixedBucketBatchSizeConstraint2D.mk buckets_2x2 [8; 4; 2; 1]%Z)
    (Some (1 # 2)).

(** An audio example that carries a cached token count. *)
Definition cut_with_num_tokens : Example :=
  Audio (mkCut 3 [] (Some 7) None).

Definition multimodal_1d : MultimodalFixedBucketBatchSizeConstraint2D.t :=
  MultimodalFixedBucketBatchSizeConstraint2D.mk
    (FixedBucketBatchSizeConstraint2D.mk
       [PyNum 10; PyNum 20; PyNum 30] [8; 4; 2]%Z)
    None.

Definition constraint_100_tokens : MultimodalSamplingConstraint.t :=
  MultimodalSamplingConstraint.init (1 # 2) (Some 10%Z) (Some 100) None.

(** A constraint with a budget of 10 tokens and 10 examples, and a
    quadratic factor of 1. *)
Definition constraint_quadratic : MultimodalSamplingConstraint.t :=
  MultimodalSamplingConstraint.init 1 (Some 10%Z) (Some 10) (Some 1).

(** Two buckets with the same first-dimension boundary. *)
Definition buckets_2_2_4 : list (Q * Q) := [(2, 2); (2, 4)].

(* ===================================================================== *)
(** ** Tokens per second and the sampling filters *)
(* ===================================================================== *)

Definition _measure_tps (cut : Example) : result Q :=
  num_tokens <- _measure_tokens cut ;;
  d <- get_duration cut ;;
  py_truediv num_tokens d.

(** A bound of a filter: a number, or [float("inf")], the default upper
    bound of the configuration. *)
Inductive Bound : Type :=
| Finite (q : Q)
| PosInf.

(** [a <= b] on bounds *)
Definition bound_le (a b : Bound) : bool :=
  match a, b with
  | _, PosInf => true
  | Finite x, Finite y => Qle_bool x y
  | PosInf, Finite _ => false
  end.

(** [a < b] on bounds *)
Definition bound_lt (a b : Bound) : bool := negb (bound_le b a).

Module DurationFilter.

Record t : Type := mk {
  d_min : Bound;
  d_max : Bound }.

(** [__call__]: [d_min <= example.duration <= d_max] for a cut, [True]
    for anything else. *)
Definition call (self : t) (example : Example) : bool :=
  match example with
  | Audio c =>
      bound_le (d_min self) (Finite (duration c))
      && bound_le (Finite (duration c)) (d_max self)
  | _ => true
  end.

End DurationFilter.

Module TokenPerSecondFilter.

Record t : Type := mk {
  tps_min : Bound;
  tps_max : Bound;
  enabled : bool }.

(** [__init__] *)
Definition init (tps_min tps_max : Bound) : result t :=
  _ <- py_assert (bound_le tps_min tps_max) "" ;;
  Ok (mk tps_min tps_max
         (bound_lt (Finite 0) tps_min || bound_lt tps_max PosInf)).

(** [__call__] *)
Definition call (self : t) (example : Example) : result bool :=
  if negb (isinstance_Cut example) || negb (enabled self) then Ok true
  else
    tps <- _measure_tps example ;;
    Ok (bound_le (tps_min self) (Finite tps)
        && bound_le (Finite tps) (tps_max self)).

End TokenPerSecondFilter.

(* ===================================================================== *)
(** ** Bucket bins and the constraint of a configuration *)
(* ===================================================================== *)

(** An entry of [bucket_duration_bins]: a number, or the two forms of a
    2D bin, the list that [OmegaConf.to_container] gives and the tuple that
    [determine_bucket_duration_bins] makes of it. *)
Inductive BinValue : Type :=
| BinNum (q : Q)
| BinList (items : list Q)
| BinTuple (items : list Q).

(** [isinstance(item, Sequence)] on an entry of the bins *)
Definition is_bin_sequence (item : BinValue) : bool :=
  match item with
  | BinNum _ => false
  | BinList _ | BinTuple _ => true
  end.

(** The pair [[a, b]] as a list, and [(a, b)] as a tuple.  The tuple is
    what [pair_val] is among the values that a constraint compares. *)
Definition pair_list (p : Q * Q) : BinValue := BinList [fst p; snd p].

Definition pair_tuple (p : Q * Q) : BinValue := BinTuple [fst p; snd p].

(** The options of [LhotseDataLoadingConfig] that decide the bucket bins
    and the sampling constraint. *)
Record Config : Type := mkConfig {
  batch_size : option Z;
  batch_duration : option Q;
  quadratic_duration : option Q;
  bucket_batch_size : option (list Z);
  num_buckets : Z;
  bucket_duration_bins : option (list BinValue);
  use_multimodal_sampling : bool;
  token_equivalent_duration : option Q;
  batch_tokens : option Q;
  quadratic_factor : option Q;
  min_duration : option Q;
  max_duration : option Bound }.

(** [np.linspace(start, stop, num)]: [num] evenly spaced samples from
    [start] to [stop], both included. *)
Definition linspace (start stop : Q) (num : Z) : result (list Q) :=
  if (num <? 0)%Z then Raise ValueError
  else
    let div := if (1 <? num)%Z then (num - 1)%Z else 1%Z in
    let step := (stop - start) / inject_Z div in
    let y := map (fun i => inject_Z (Z.of_nat i) * step + start)
               (seq 0 (Z.to_nat num)) in
    Ok (if (1 <? num)%Z then removelast y ++ [stop] else y).

(** [l[1:-1]] *)
Definition slice_1_m1 {A : Type} (l : list A) : list A := removelast (tl l).

(** [tuple(item)] *)
Definition py_tuple (item : BinValue) : result BinValue :=
  match item with
  | BinList items | BinTuple items => Ok (BinTuple items)
  | BinNum _ => Raise TypeError
  end.

(** [[f(item) for item in l]] for an [f] that may raise *)
Fixpoint map_result {A B : Type} (f : A -> result B) (l : list A)
  : result (list B) :=
  match l with
  | [] => Ok []
  | a :: rest => b <- f a ;; bs <- map_result f rest ;; Ok (b :: bs)
  end.

Definition determine_bucket_duration_bins (config : Config)
  : result (option (list BinValue)) :=
  match bucket_duration_bins config with
  | Some ans =>
      first <- list_item ans 0 ;;
      if is_bin_sequence first then
        ans' <- map_result py_tuple ans ;; Ok (Some ans')
      else Ok (Some ans)
  | None =>
      if use_multimodal_sampling config then Ok None
      else
        match max_duration config with
        | Some (Finite end_) =>
            let begin :=
              match min_duration config with
              | Some d => if Qlt_bool 0 d then d else 0
              | None => 0
              end in
            samples <- linspace begin end_ (num_buckets config + 1) ;;
            Ok (Some (map BinNum (slice_1_m1 samples)))
        | _ => Ok None
        end
  end.

(** The lower end of the bins that [determine_bucket_duration_bins]
    computes: [min_duration] when it is set and positive, 0 otherwise. *)
Definition bins_begin (config : Config) : Q :=
  match min_duration config with
  | Some d => if Qlt_bool 0 d then d else 0
  | None => 0
  end.

(** The constructor call that builds the sampling constraint, with its
    arguments. *)
Inductive ConstraintCall : Type :=
| NewMultimodalFixedBucketBatchSizeConstraint2D
    (max_seq_len_buckets : list BinValue) (batch_sizes : list Z)
    (token_equivalent_duration : option Q)
| NewMultimodalSamplingConstraint
    (token_equivalent_duration : option Q) (batch_size : option Z)
    (batch_tokens quadratic_factor : option Q)
| NewFixedBucketBatchSizeConstraint2D
    (max_seq_len_buckets : list BinValue) (batch_sizes : list Z)
| NewTimeConstraint
    (max_cuts : option Z) (max_duration quadratic_duration : option Q).

(** The choice of the constraint in [get_lhotse_dataloader_from_config]:
    the statements from [bucket_duration_bins = ...] to the construction of
    [constraint]. *)
Definition constraint_of_config (config : Config) : result ConstraintCall :=
  bucket_duration_bins <- determine_bucket_duration_bins config ;;
  if use_multimodal_sampling config then
    match bucket_batch_size config with
    | Some sizes =>
        match bucket_duration_bins with
        | None =>
            Raise (AssertionError
              "Cannot use bucket_batch_size option if bucket_duration_bins are not provided.")
        | Some bins =>
            Ok (NewMultimodalFixedBucketBatchSizeConstraint2D bins sizes
                  (token_equivalent_duration config))
        end
    | None =>
        Ok (NewMultimodalSamplingConstraint (token_equivalent_duration config)
              (batch_size config) (batch_tokens config)
              (quadratic_factor config))
    end
  else
    match bucket_batch_size config with
    | Some sizes =>
        match bucket_duration_bins with
        | None =>
            Raise (AssertionError
              "Cannot use bucket_batch_size option if bucket_duration_bins are not provided.")
        | Some bins => Ok (NewFixedBucketBatchSizeConstraint2D bins sizes)
        end
    | None =>
        Ok (NewTimeConstraint (batch_size config) (batch_duration config)
              (quadratic_duration config))
    end.

(* ===================================================================== *)
(** ** [_select_channel] *)
(* ===================================================================== *)

(** [channel_selector]: a channel index, or a key of [cut.custom] under
    which the index is stored. *)
Inductive ChannelSelector : Type :=
| ChannelIndex (i : Z)
| ChannelKey (key : string).

(** [d[key]] on a dictionary kept as an association list; [None] when the
    key is absent. *)
Fixpoint dict_get (d : list (string * Z)) (key : string) : option Z :=
  match d with
  | [] => None
  | (k, v) :: rest => if String.eqb k key then Some v else dict_get rest key
  end.

Section SelectChannel.

(** The cut as [_select_channel] sees it: its number of channels, its
    [custom] dictionary when it has one, and the [with_channels] method of
    multi-channel cuts. *)
Variable AnyCut : Type.
Variable num_channels : AnyCut -> Z.
Variable custom : AnyCut -> option (list (string * Z)).
Variable with_channels : AnyCut -> Z -> AnyCut.

Definition _select_channel (cut : AnyCut) (channel_selector : ChannelSelector)
  : result AnyCut :=
  channel_idx <-
    match channel_selector with
    | ChannelIndex i => Ok i
    | ChannelKey key =>
        match custom cut with
        | None => Raise TypeError
        | Some d =>
            match dict_get d key with
            | Some i => Ok i
            | None => Raise ValueError
            end
        end
    end ;;
  if (num_channels cut <=? channel_idx)%Z then Raise ValueError
  else if (num_channels cut =? 1)%Z then Ok cut
  else Ok (with_channels cut channel_idx).

End SelectChannel.

(* ===================================================================== *)
(** ** Strings *)
(* ===================================================================== *)

Definition is_slash (c : ascii) : bool := Ascii.eqb c "/"%char.

(** [s.split("/")] *)
Fixpoint str_split_slash (s : string) : list string :=
  match s with
  | EmptyString => [EmptyString]
  | String c rest =>
      if is_slash c then EmptyString :: str_split_slash rest
      else
        match str_split_slash rest with
        | piece :: pieces => String c piece :: pieces
        | [] => [String c EmptyString]
        end
  end.

(** [sep.join(l)] *)
Fixpoint str_join (sep : string) (l : list string) : string :=
  match l with
  | [] => EmptyString
  | [a] => a
  | a :: rest => (a ++ sep ++ str_join sep rest)%string
  end.

(** [s.replace("/", "--")] *)
Fixpoint str_replace_slash (s : string) : string :=
  match s with
  | EmptyString => EmptyString
  | String c rest =>
      if is_slash c then String "-" (String "-" (str_replace_slash rest))
      else String c (str_replace_slash rest)
  end.

(** [s.endswith(suffix)] *)
Fixpoint str_endswith (s suffix : string) : bool :=
  String.eqb s suffix
  || match s with
     | EmptyString => false
     | String _ rest => str_endswith rest suffix
     end.

(** ["/" in s] *)
Fixpoint has_slash (s : string) : bool :=
  match s with
  | EmptyString => false
  | String c rest => is_slash c || has_slash rest
  end.

(** [l[-3:-1]] *)
Definition slice_m3_m1 {A : Type} (l : list A) : list A :=
  removelast (skipn (List.length l - 3) l).

(** [str(n)] for an integer *)
Definition str_of_int (n : Z) : string := NilZero.string_of_int (Z.to_int n).

(* ===================================================================== *)
(** ** [FineTuningDataModule] *)
(* ===================================================================== *)

Module FineTuningDataModule.

(** The tokenizer: an [AutoTokenizer], of which the name of the wrapped
    tokenizer is read, or anything else, of which only [hash] is used. *)
Inductive Tokenizer : Type :=
| AutoTokenizer (name_or_path : string)
| OtherTokenizer (hash : Z).

Section Paths.

(** File-system paths and the [/] operator that appends a component. *)
Variable Path : Type.
Variable joinpath : Path -> string -> Path.

(** The fields of [PackedSequenceSpecs] the module reads. *)
Record PackedSequenceSpecs : Type := mkSpecs {
  specs_packed_sequence_size : Z;
  tokenizer_model_name : option string;
  packed_data_path : option Path }.

Record t : Type := mk {
  dataset_root : Path;
  seq_length : Z;
  tokenizer : Tokenizer;
  micro_batch_size : Z;
  global_batch_size : Z;
  packed_sequence_specs : option PackedSequenceSpecs;
  packed_sequence_size : Z }.

Definition validate_batch_size_for_packed_sequence (self : t) : result unit :=
  if (0 <? packed_sequence_size self)%Z && (1 <? micro_batch_size self)%Z
  then Raise ValueError
  else Ok tt.

(** [__init__], for the fields above. *)
Definition init (dataset_root : Path) (seq_length : Z) (tokenizer : Tokenizer)
    (micro_batch_size global_batch_size : Z)
    (packed_sequence_specs : option PackedSequenceSpecs) : result t :=
  let self :=
    mk dataset_root seq_length tokenizer micro_batch_size global_batch_size
       packed_sequence_specs
       match packed_sequence_specs with
       | None => (-1)%Z
       | Some specs => specs_packed_sequence_size specs
       end in
  _ <- validate_batch_size_for_packed_sequence self ;;
  Ok self.

Definition _extract_tokenizer_model_name (self : t) : result string :=
  match packed_sequence_specs self with
  | None => Raise (AttributeError "tokenizer_model_name")
  | Some specs =>
      match tokenizer_model_name specs with
      | Some name => Ok name
      | None =>
          match tokenizer self with
          | AutoTokenizer name =>
              if str_endswith name "nemo_tokenizer" then
                Ok (str_join "--" (slice_m3_m1 (str_split_slash name)))
              else Ok (str_replace_slash name)
          | OtherTokenizer hash =>
              Ok ("unknown_tokenizer_" ++ str_of_int hash)%string
          end
      end
  end.

Definition train_path (self : t) : Path :=
  joinpath (dataset_root self) "training.jsonl".

Definition validation_path (self : t) : Path :=
  joinpath (dataset_root self) "validation.jsonl".

Definition test_path (self : t) : Path :=
  joinpath (dataset_root self) "test.jsonl".

(** [train_path_packed]: the path, and the directory the property creates
    on the way ([folder_name.mkdir]) when it computes the path itself. *)
Definition train_path_packed (self : t) : result (Path * option Path) :=
  if (0 <? packed_sequence_size self)%Z then
    match packed_sequence_specs self with
    | None => Raise (AttributeError "packed_data_path")
    | Some specs =>
        match packed_data_path specs with
        | Some p => Ok (p, None)
        | None =>
            tokenizer_model_name <- _extract_tokenizer_model_name self ;;
            let folder_name :=
              joinpath (joinpath (dataset_root self) "packed")
                tokenizer_model_name in
            Ok (joinpath folder_name
                  ("training_" ++ str_of_int (packed_sequence_size self)
                   ++ ".npy")%string,
                Some folder_name)
        end
    end
  else Raise ValueError.

(** What [_create_dataset] asks of [create_sft_dataset]: the file and the
    sequence length. *)
Definition _create_dataset (self : t) (path : Path) (is_test : bool)
  : Path * Z :=
  (path,
   if is_test || (packed_sequence_size self <=? 0)%Z then seq_length self
   else packed_sequence_size self).

(** The dataset of [train_dataloader]. *)
Definition train_dataset (self : t) : result (Path * Z) :=
  path <-
    (if (packed_sequence_size self <=? 0)%Z then Ok (train_path self)
     else '(p, _) <- train_path_packed self ;; Ok p) ;;
  Ok (_create_dataset self path false).

(** The dataset of [val_dataloader]. *)
Definition val_dataset (self : t) : Path * Z :=
  _create_dataset self (validation_path self) true.

(** The dataset of [test_dataloader]. *)
Definition test_dataset (self : t) : Path * Z :=
  _create_dataset self (test_path self) true.

End Paths.

End FineTuningDataModule.

(* ===================================================================== *)
(** ** [tokenize] and [tokenize_with_prompt] *)
(* ===================================================================== *)

Module Tokenization.

(** A supervision with the fields tokenization reads and writes. *)
Record TextSupervision : Type := mkTextSupervision {
  sup_text : option string;
  sup_language : option string;
  sup_tokens : option (list Z) }.

(** A cut with its supervisions in full and the attributes
    [tokenize_with_prompt] sets. *)
Record TextCut : Type := mkTextCut {
  cut_duration : Q;
  cut_supervisions : list TextSupervision;
  cut_num_tokens : option Q;
  cut_tokenized_prompted_transcript : option (list Z);
  cut_tokenized_prompt : option (list Z);
  cut_tokenized_transcript : option (list Z) }.

(** A text example: its text, its language and, once tokenized, its
    tokens. *)
Record Text : Type := mkText {
  text : string;
  language : option string;
  tokens : option (list Z) }.

Inductive RawExample : Type :=
| RawCut (c : TextCut)
| RawTextExample (t : Text)
| RawTextPairExample (source target : Text)
| RawOther (type_name : string).

(** The cut as the sampling constraints and [_measure_tokens] see it. *)
Definition view_supervision (s : TextSupervision) : Supervision :=
  mkSupervision (sup_tokens s).

Definition view_cut (c : TextCut) : Cut :=
  mkCut (cut_duration c) (map view_supervision (cut_supervisions c))
    (cut_num_tokens c) (cut_tokenized_prompted_transcript c).

Section WithTokenizer.

(** [tokenizer(text, language)] *)
Variable tokenizer : string -> option string -> list Z.

(** The body of the loop over the supervisions of a cut. *)
Definition tokenize_supervision (s : TextSupervision) : TextSupervision :=
  match sup_text s with
  | Some t => mkTextSupervision (sup_text s) (sup_language s)
                (Some (tokenizer t (sup_language s)))
  | None => s
  end.

Definition tokenize (example : RawExample) : result RawExample :=
  match example with
  | RawCut c =>
      Ok (RawCut (mkTextCut (cut_duration c)
                    (map tokenize_supervision (cut_supervisions c))
                    (cut_num_tokens c) (cut_tokenized_prompted_transcript c)
                    (cut_tokenized_prompt c) (cut_tokenized_transcript c)))
  | RawTextExample t =>
      Ok (RawTextExample
            (mkText (text t) (language t)
               (Some (tokenizer (text t) (language t)))))
  | RawTextPairExample source target =>
      Ok (RawTextPairExample
            (mkText (text source) (language source)
               (Some (tokenizer (text source) (language source))))
            (mkText (text target) (language target)
               (Some (tokenizer (text source) (language target)))))
  | RawOther type_name =>
      Raise (RuntimeError
        ("Unsupported type of example: <class '" ++ type_name ++ "'>"))
  end.

(** [prompt_format_fn(CutSet([example]), tokenizer)] for the configured
    prompt format: three sequences, of the prompted transcripts, the
    prompts and the transcripts of the cuts. *)
Variable prompt_format_fn :
  TextCut -> list (list Z) * list (list Z) * list (list Z).



End WithTokenizer.

End Tokenization.

(* ===================================================================== *)
(** * Properties *)
(* ===================================================================== *)

(** ** Comparisons *)

Lemma Qlt_bool_iff (a b : Q) : Qlt_bool a b = true <-> a < b.
Proof.
  unfold Qlt_bool. rewrite negb_true_iff.
  split; intro H.
  - apply Qnot_le_lt. intro Hle. apply Qle_bool_iff in Hle. congruence.
  - destruct (Qle_bool b a) eqn:E; [|reflexivity].
    apply Qle_bool_iff in E. exfalso. apply (Qlt_not_le _ _ H E).
Qed.

Lemma Qlt_bool_false_iff (a b : Q) : Qlt_bool a b = false <-> b <= a.
Proof.
  unfold Qlt_bool. rewrite negb_false_iff. apply Qle_bool_iff.
Qed.

Lemma Qeq_bool_false_iff (a b : Q) : Qeq_bool a b = false <-> ~ a == b.
Proof.
  split; intro H.
  - intro E. apply Qeq_bool_iff in E. congruence.
  - destruct (Qeq_bool a b) eqn:E; [|reflexivity].
    apply Qeq_bool_iff in E. contradiction.
Qed.

Lemma Qle_bool_false_iff (a b : Q) : Qle_bool a b = false <-> b < a.
Proof.
  rewrite <- Qlt_bool_iff. unfold Qlt_bool. rewrite negb_true_iff. reflexivity.
Qed.

(** Turns boolean comparisons on numbers in the context and the goal into
    propositions, for [lra]. *)
Ltac qbool :=
  repeat match goal with
    | H : Qlt_bool _ _ = true |- _ => apply Qlt_bool_iff in H
    | H : Qlt_bool _ _ = false |- _ => apply Qlt_bool_false_iff in H
    | H : Qle_bool _ _ = true |- _ => apply Qle_bool_iff in H
    | H : Qle_bool _ _ = false |- _ => apply Qle_bool_false_iff in H
    | H : Qeq_bool _ _ = true |- _ => apply Qeq_bool_iff in H
    | H : Qeq_bool _ _ = false |- _ => apply Qeq_bool_false_iff in H
    | |- Qlt_bool _ _ = true => apply Qlt_bool_iff
    | |- Qlt_bool _ _ = false => apply Qlt_bool_false_iff
    | |- Qle_bool _ _ = true => apply Qle_bool_iff
    | |- Qeq_bool _ _ = true => apply Qeq_bool_iff
    | |- Qeq_bool _ _ = false => apply Qeq_bool_false_iff
    end.

Lemma seq_lt_asym (a b : list Q) : seq_lt a b = true -> seq_lt b a = false.
Proof.
  revert b. induction a as [|x a IH]; intros [|y b] H; simpl in *;
    try congruence.
  destruct (Qeq_bool x y) eqn:Exy, (Qeq_bool y x) eqn:Eyx.
  - auto.
  - qbool. exfalso. apply Eyx. symmetry. exact Exy.
  - qbool. exfalso. apply Exy. symmetry. exact Eyx.
  - qbool. lra.
Qed.

Lemma py_lt_asym (x y : PyVal) : py_lt y x = Ok true -> py_lt x y = Ok false.
Proof.
  destruct x as [a|a], y as [b|b]; simpl; try discriminate; intro H.
  - injection H as H. f_equal. qbool. lra.
  - injection H as H. f_equal. apply seq_lt_asym. exact H.
Qed.

(** ** Binary search *)

Lemma div2_mid (lo hi : nat) :
  (lo < hi)%nat -> (lo <= Nat.div2 (lo + hi) < hi)%nat.
Proof.
  intro H. rewrite Nat.div2_div. pose proof (Nat.div_mod_eq (lo + hi) 2).
  pose proof (Nat.mod_upper_bound (lo + hi) 2). lia.
Qed.

(** One iteration of the loop of [bisect_right]. *)
Lemma bisect_loop_eq (a : list PyVal) (x : PyVal) (lo hi : nat) :
  bisect_loop a x lo hi =
  if (lo <? hi)%nat then
    am <- list_item a (Nat.div2 (lo + hi)) ;;
    lt <- py_lt x am ;;
    if lt then bisect_loop a x lo (Nat.div2 (lo + hi))
    else bisect_loop a x (S (Nat.div2 (lo + hi))) hi
  else Ok lo.
Proof.
  funelim (bisect_loop a x lo hi); try clear Heqcall;
    destruct (Nat.ltb_spec lo hi); try lia;
    repeat match goal with
      | H : list_item _ _ = _ |- _ => rewrite H; clear H; cbn [bind]
      | H : py_lt _ _ = _ |- _ => rewrite H; clear H; cbn [bind]
      end; reflexivity.
Qed.

Lemma list_item_Some {A : Type} (l : list A) (i : nat) (a : A) :
  nth_error l i = Some a -> list_item l i = Ok a.
Proof. unfold list_item. intros ->. reflexivity. Qed.

Lemma list_item_lt {A : Type} (l : list A) (i : nat) :
  (i < List.length l)%nat -> exists a, nth_error l i = Some a /\ list_item l i = Ok a.
Proof.
  intro H. unfold list_item.
  destruct (nth_error l i) as [a|] eqn:E.
  - exists a. auto.
  - apply nth_error_None in E. lia.
Qed.

Lemma list_item_out {A : Type} (l : list A) (i : nat) :
  (List.length l <= i)%nat -> list_item l i = Raise IndexError.
Proof.
  intro H. unfold list_item.
  rewrite (proj2 (nth_error_None l i) H). reflexivity.
Qed.

(** When the searched value is below no entry of the table, the loop runs
    to its upper end. *)
Lemma bisect_loop_all_false (a : list PyVal) (x : PyVal) :
  Forall (fun b => py_lt x b = Ok false) a ->
  forall n lo hi, (hi - lo = n)%nat ->
  (lo <= hi)%nat -> (hi <= List.length a)%nat ->
  bisect_loop a x lo hi = Ok hi.
Proof.
  intros Hall n. induction n as [n IH] using lt_wf_ind.
  intros lo hi Hn Hlo Hhi. rewrite bisect_loop_eq.
  destruct (Nat.ltb_spec lo hi) as [Hlt|Hge].
  - pose proof (div2_mid lo hi Hlt) as Hmid.
    destruct (list_item_lt a (Nat.div2 (lo + hi))) as (am & Ham & ->); [lia|].
    cbn [bind]. rewrite Forall_forall in Hall.
    rewrite (Hall am (nth_error_In _ _ Ham)). cbn [bind].
    apply (IH (hi - S (Nat.div2 (lo + hi)))%nat); lia.
  - f_equal. lia.
Qed.

Lemma bisect_right_all_false (a : list PyVal) (x : PyVal) :
  Forall (fun b => py_lt x b = Ok false) a ->
  bisect_right a x = Ok (List.length a).
Proof.
  intro Hall. unfold bisect_right.
  apply (bisect_loop_all_false a x Hall (List.length a - 0)%nat); lia.
Qed.

(** ** The refinement loop *)

(** One iteration of the refinement loop of [select_bucket]. *)
Lemma refine_loop_eq (tbl : list PyVal) (example_len : PyVal)
    (bucket_idx : nat) (bin_dim0 bin_dim1 : Q) :
  FixedBucketBatchSizeConstraint2D.refine_loop tbl example_len bucket_idx
    bin_dim0 bin_dim1 =
  if (S bucket_idx <? List.length tbl)%nat then
    go <- FixedBucketBatchSizeConstraint2D.refine_cond tbl example_len
            (S bucket_idx) bin_dim0 bin_dim1 ;;
    if go then
      '(d0, d1) <- bind (list_item tbl (S bucket_idx)) py_unpack2 ;;
      FixedBucketBatchSizeConstraint2D.refine_loop tbl example_len
        (S bucket_idx) d0 d1
    else Ok bucket_idx
  else Ok bucket_idx.
Proof.
  funelim (FixedBucketBatchSizeConstraint2D.refine_loop tbl example_len
             bucket_idx bin_dim0 bin_dim1); try clear Heqcall;
    destruct (Nat.ltb_spec (S bucket_idx) (List.length tbl)); try lia;
    repeat match goal with
      | H : FixedBucketBatchSizeConstraint2D.refine_cond _ _ _ _ _ = _ |- _ =>
          rewrite H; clear H; cbn [bind]
      | H : bind (list_item _ _) py_unpack2 = _ |- _ =>
          rewrite H; clear H; cbn [bind]
      end; reflexivity.
Qed.

(* ===================================================================== *)
(** ** [FixedBucketBatchSizeConstraint2D]: concrete tables *)
(* ===================================================================== *)

(** C2. With the boundary table [(1,1),(1,2),(2,2),(2,4)] and an example of
    length (1.5, 3), [select_bucket] returns index 3, whereas
    [bisect_right] alone returns 2; the one-dimensional parent method and
    the batch-size table play no part. *)
Theorem select_bucket_2x2_example :
  forall super batch_sizes,
    FixedBucketBatchSizeConstraint2D.select_bucket super
      (FixedBucketBatchSizeConstraint2D.mk buckets_2x2 batch_sizes)
      buckets_2x2 None (Some (PySeq [3 # 2; 3])) = Ok 3%nat
    /\ bisect_right buckets_2x2 (PySeq [3 # 2; 3]) = Ok 2%nat.
Proof.
  intros super batch_sizes. split; reflexivity.
Qed.

(** C3. With boundaries [10.0, 20.0, 30.0] and batch sizes [8, 4, 2]: an
    example of duration 15.0 selects bucket 1 and batch budget 4; an
    example of duration 35.0 selects bucket 3, beyond the last boundary,
    and batch budget 2, the last entry; an example of duration 5.0 selects
    bucket 0 and batch budget 8. *)
Theorem scenario_buckets_and_budgets :
  scenario_select 15 = Ok 1%nat
  /\ batch_budget scenario_1d (cut_of_duration 15) = Ok 4%Z
  /\ scenario_select 35 = Ok 3%nat
  /\ batch_budget scenario_1d (cut_of_duration 35) = Ok 2%Z
  /\ scenario_select 5 = Ok 0%nat
  /\ batch_budget scenario_1d (cut_of_duration 5) = Ok 8%Z.
Proof.
  repeat split; reflexivity.
Qed.

(* ===================================================================== *)
(** ** [FixedBucketBatchSizeConstraint2D]: one-dimensional tables *)
(* ===================================================================== *)

(** C4. When the boundary table is one-dimensional, that is when
    [bucketing_2d_enabled] (computed from the first boundary entry) is
    false, [measure_length] returns the example's duration, as the plain
    policy does, and [select_bucket] is the inherited one-dimensional
    method on the same arguments. *)
Theorem one_dimensional_table_degrades_to_1d :
  forall super self,
    FixedBucketBatchSizeConstraint2D.bucketing_2d_enabled self = Ok false ->
    (forall example,
        FixedBucketBatchSizeConstraint2D.measure_length self example
        = d <- get_duration example ;; Ok (PyNum d))
    /\ (forall buckets example example_len,
        FixedBucketBatchSizeConstraint2D.select_bucket super self buckets
          example example_len
        = super (FixedBucketBatchSizeConstraint2D.measure_length self)
            buckets example example_len)
    /\ (forall buckets example example_len,
        select_bucket_2d self buckets example example_len
        = FixedBucketBatchSizeConstraint.select_bucket
            (fun e => d <- get_duration e ;; Ok (PyNum d))
            buckets example example_len).
Proof.
  intros super self H2d.
  assert (Hm : forall example,
             FixedBucketBatchSizeConstraint2D.measure_length self example
             = d <- get_duration example ;; Ok (PyNum d)).
  { intro example. unfold FixedBucketBatchSizeConstraint2D.measure_length.
    rewrite H2d. reflexivity. }
  split; [exact Hm|]. split.
  - intros. unfold FixedBucketBatchSizeConstraint2D.select_bucket.
    rewrite H2d. reflexivity.
  - intros. unfold select_bucket_2d,
      FixedBucketBatchSizeConstraint2D.select_bucket.
    rewrite H2d. cbn [bind negb].
    unfold FixedBucketBatchSizeConstraint.select_bucket.
    destruct example_len as [l|]; [reflexivity|].
    destruct example as [e|]; [|reflexivity].
    rewrite Hm. reflexivity.
Qed.

Lemma one_dimensional_table_degrades_to_1d_witness :
  FixedBucketBatchSizeConstraint2D.measure_length scenario_1d
    (cut_of_duration 15) = Ok (PyNum 15)
  /\ select_bucket_2d scenario_1d [PyNum 10; PyNum 20; PyNum 30]
       (Some (cut_of_duration 15)) None = Ok 1%nat.
Proof.
  destruct (one_dimensional_table_degrades_to_1d
              FixedBucketBatchSizeConstraint.select_bucket scenario_1d
              eq_refl) as (Hm & _ & Hs).
  split.
  - rewrite Hm. reflexivity.
  - rewrite Hs. reflexivity.
Defined.

(* ===================================================================== *)
(** ** [FixedBucketBatchSizeConstraint2D]: beyond the last boundary *)
(* ===================================================================== *)

(** C9. With 2D bucketing enabled, when the example's length compares
    greater than every boundary of the table, the binary search returns
    the number of buckets and [select_bucket] raises [IndexError] at the
    lookup of that position instead of returning an index. *)
Theorem select_bucket_2d_beyond_last_raises :
  forall super self example example_len,
    FixedBucketBatchSizeConstraint2D.bucketing_2d_enabled self = Ok true ->
    Forall (fun b => py_lt b example_len = Ok true)
      (FixedBucketBatchSizeConstraint2D.max_seq_len_buckets self) ->
    bisect_right (FixedBucketBatchSizeConstraint2D.max_seq_len_buckets self)
      example_len
    = Ok (List.length (FixedBucketBatchSizeConstraint2D.max_seq_len_buckets self))
    /\ FixedBucketBatchSizeConstraint2D.select_bucket super self
         (FixedBucketBatchSizeConstraint2D.max_seq_len_buckets self)
         example (Some example_len)
       = Raise IndexError.
Proof.
  intros super self example example_len H2d Hall.
  assert (Hb : bisect_right
                 (FixedBucketBatchSizeConstraint2D.max_seq_len_buckets self)
                 example_len
               = Ok (List.length
                       (FixedBucketBatchSizeConstraint2D.max_seq_len_buckets self))).
  { apply bisect_right_all_false.
    eapply Forall_impl; [|exact Hall].
    intros b Hb. apply py_lt_asym. exact Hb. }
  split; [exact Hb|].
  unfold FixedBucketBatchSizeConstraint2D.select_bucket.
  rewrite H2d. cbn [bind negb]. rewrite Hb. cbn [bind].
  rewrite list_item_out by lia. reflexivity.
Qed.

Lemma select_bucket_2d_beyond_last_raises_witness :
  FixedBucketBatchSizeConstraint2D.select_bucket
    FixedBucketBatchSizeConstraint.select_bucket
    (FixedBucketBatchSizeConstraint2D.mk buckets_2x2 [8; 4; 2; 1]%Z)
    buckets_2x2 None (Some (PySeq [3; 1]))
  = Raise IndexError.
Proof.
  apply (select_bucket_2d_beyond_last_raises
           FixedBucketBatchSizeConstraint.select_bucket
           (FixedBucketBatchSizeConstraint2D.mk buckets_2x2 [8; 4; 2; 1]%Z)
           None (PySeq [3; 1])).
  - reflexivity.
  - repeat constructor.
Defined.

(* ===================================================================== *)
(** ** [MultimodalSamplingConstraint.measure_length] *)
(* ===================================================================== *)

(** C5. [MultimodalSamplingConstraint.measure_length] returns the token
    count of a text example and of a text pair exactly; on an audio example
    it returns [duration / token_equivalent_duration] (the quotient itself
    whenever the divisor is not zero); on an example of any other type it
    raises an error naming the type. *)
Theorem multimodal_measure_length_by_type :
  forall self,
    (forall n,
        MultimodalSamplingConstraint.measure_length self (TextExample n) = Ok n)
    /\ (forall n,
        MultimodalSamplingConstraint.measure_length self (TextPairExample n)
        = Ok n)
    /\ (forall c,
        MultimodalSamplingConstraint.measure_length self (Audio c)
        = py_truediv (duration c)
            (MultimodalSamplingConstraint.token_equivalent_duration self))
    /\ (forall c,
        ~ MultimodalSamplingConstraint.token_equivalent_duration self == 0 ->
        MultimodalSamplingConstraint.measure_length self (Audio c)
        = Ok (duration c
              / MultimodalSamplingConstraint.token_equivalent_duration self))
    /\ (forall o,
        MultimodalSamplingConstraint.measure_length self (Other o)
        = Raise (RuntimeError
                   ("Unsupported example type: <class '" ++ type_name o ++ "'>"))).
Proof.
  intro self. repeat split; try reflexivity.
  intros c Hted. simpl. unfold py_truediv.
  apply Qeq_bool_false_iff in Hted. rewrite Hted. reflexivity.
Qed.

Lemma multimodal_measure_length_by_type_witness :
  MultimodalSamplingConstraint.measure_length
    (MultimodalSamplingConstraint.init (1 # 2) None (Some 100) None)
    (cut_of_duration 3)
  = Ok (3 / (1 # 2)).
Proof.
  apply (proj1 (proj2 (proj2 (proj2
    (multimodal_measure_length_by_type
       (MultimodalSamplingConstraint.init (1 # 2) None (Some 100) None)))))
    (mkCut 3 [] None None)).
  simpl. intro H. discriminate H.
Defined.

(* ===================================================================== *)
(** ** [MultimodalFixedBucketBatchSizeConstraint2D.measure_length] *)
(* ===================================================================== *)

(** C8. With a 2D boundary table ([bucketing_2d_enabled] true),
    [MultimodalFixedBucketBatchSizeConstraint2D.measure_length] fails on
    every example with the assertion error that 2D bucketing is not yet
    supported. *)
Theorem multimodal_fixed_bucket_2d_unsupported :
  forall self example,
    FixedBucketBatchSizeConstraint2D.bucketing_2d_enabled
      (MultimodalFixedBucketBatchSizeConstraint2D.base self) = Ok true ->
    MultimodalFixedBucketBatchSizeConstraint2D.measure_length self example
    = Raise (AssertionError
               "2D bucketing for multimodal sampling is not yet supported.").
Proof.
  intros self example H2d.
  unfold MultimodalFixedBucketBatchSizeConstraint2D.measure_length.
  rewrite H2d. reflexivity.
Qed.

Lemma multimodal_fixed_bucket_2d_unsupported_witness :
  MultimodalFixedBucketBatchSizeConstraint2D.measure_length multimodal_2x2
    (TextExample 12)
  = Raise (AssertionError
             "2D bucketing for multimodal sampling is not yet supported.").
Proof.
  apply (multimodal_fixed_bucket_2d_unsupported multimodal_2x2 (TextExample 12)).
  reflexivity.
Defined.

(** C10, as stated, fails: with a 2D boundary table the assertion comes
    first, so an example that has a [num_tokens] attribute does not get it
    back. *)
Lemma num_tokens_not_returned_under_2d :
  getattr_num_tokens cut_with_num_tokens = Some 7
  /\ MultimodalFixedBucketBatchSizeConstraint2D.measure_length multimodal_2x2
       cut_with_num_tokens <> Ok 7.
Proof.
  split; [reflexivity|].
  vm_compute. discriminate.
Qed.

(** C10, amended. When 2D bucketing is not enabled,
    [MultimodalFixedBucketBatchSizeConstraint2D.measure_length] returns the
    example's [num_tokens] attribute whenever it exists, whatever the type
    of the example and whether or not [token_equivalent_duration] is
    configured: an audio example with a cached [num_tokens] skips both the
    conversion and the check.  The unsupported-type error is raised exactly
    for the examples that are not audio and have no [num_tokens]. *)
Theorem multimodal_fixed_bucket_num_tokens_first :
  forall self example,
    FixedBucketBatchSizeConstraint2D.bucketing_2d_enabled
      (MultimodalFixedBucketBatchSizeConstraint2D.base self) = Ok false ->
    (forall n,
        getattr_num_tokens example = Some n ->
        MultimodalFixedBucketBatchSizeConstraint2D.measure_length self example
        = Ok n)
    /\ ((isinstance_Cut example = false /\ getattr_num_tokens example = None)
        <->
        MultimodalFixedBucketBatchSizeConstraint2D.measure_length self example
        = Raise (RuntimeError
                   ("Unsupported example type: " ++ type_repr example))).
Proof.
  intros self example H2d.
  unfold MultimodalFixedBucketBatchSizeConstraint2D.measure_length.
  rewrite H2d. cbn [bind negb py_assert]. split.
  - intros n ->. reflexivity.
  - split.
    + intros [Hcut ->]. rewrite Hcut. reflexivity.
    + destruct (getattr_num_tokens example) as [n|]; [discriminate|].
      destruct (isinstance_Cut example) eqn:Hcut.
      * destruct (MultimodalFixedBucketBatchSizeConstraint2D.token_equivalent_duration self)
          as [ted|]; [|discriminate].
        destruct example as [c| | |o]; try discriminate.
        simpl. unfold py_truediv. destruct (Qeq_bool ted 0); discriminate.
      * auto.
Qed.

Lemma multimodal_fixed_bucket_num_tokens_first_witness :
  MultimodalFixedBucketBatchSizeConstraint2D.measure_length multimodal_1d
    cut_with_num_tokens = Ok 7.
Proof.
  apply (proj1 (multimodal_fixed_bucket_num_tokens_first multimodal_1d
                  cut_with_num_tokens eq_refl) 7).
  reflexivity.
Defined.

(* ===================================================================== *)
(** ** [MultimodalSamplingConstraint.add] *)
(* ===================================================================== *)

(** C7. [MultimodalSamplingConstraint.add] on an audio example measures it
    with [measure_length], stores the result on the example as
    [num_tokens], and hands the updated example to the internal
    token-counting constraint; on any other example it hands the example
    over as it is.  Whenever [add] returns, the example differs from the
    one given at most in the [num_tokens] of an audio example, the
    constraint keeps its four configured fields, and its internal
    constraint is the one the internal [add] produces, with the same
    configured bounds and penalty factor: only the running totals move. *)
Theorem multimodal_add_caches_then_delegates :
  forall self,
    (forall c n i,
        MultimodalSamplingConstraint.measure_length self (Audio c) = Ok n ->
        TokenConstraint.add (MultimodalSamplingConstraint._internal self)
          (Audio (set_num_tokens c n)) = Ok i ->
        MultimodalSamplingConstraint.add self (Audio c)
        = Ok (MultimodalSamplingConstraint.set_internal self i,
              Audio (set_num_tokens c n)))
    /\ (forall example i,
        isinstance_Cut example = false ->
        TokenConstraint.add (MultimodalSamplingConstraint._internal self)
          example = Ok i ->
        MultimodalSamplingConstraint.add self example
        = Ok (MultimodalSamplingConstraint.set_internal self i, example))
    /\ (forall example self' example',
        MultimodalSamplingConstraint.add self example = Ok (self', example') ->
        match example with
        | Audio c =>
            exists n,
              MultimodalSamplingConstraint.measure_length self example = Ok n
              /\ example' =
                   Audio (mkCut (duration c) (supervisions c) (Some n)
                            (tokenized_prompted_transcript c))
        | _ => example' = example
        end
        /\ TokenConstraint.add (MultimodalSamplingConstraint._internal self)
             example'
           = Ok (MultimodalSamplingConstraint._internal self')
        /\ MultimodalSamplingConstraint.token_equivalent_duration self'
           = MultimodalSamplingConstraint.token_equivalent_duration self
        /\ MultimodalSamplingConstraint.batch_size self'
           = MultimodalSamplingConstraint.batch_size self
        /\ MultimodalSamplingConstraint.batch_tokens self'
           = MultimodalSamplingConstraint.batch_tokens self
        /\ MultimodalSamplingConstraint.quadratic_factor self'
           = MultimodalSamplingConstraint.quadratic_factor self
        /\ TokenConstraint.max_tokens (MultimodalSamplingConstraint._internal self')
           = TokenConstraint.max_tokens (MultimodalSamplingConstraint._internal self)
        /\ TokenConstraint.max_examples (MultimodalSamplingConstraint._internal self')
           = TokenConstraint.max_examples (MultimodalSamplingConstraint._internal self)
        /\ TokenConstraint.quadratic_length (MultimodalSamplingConstraint._internal self')
           = TokenConstraint.quadratic_length (MultimodalSamplingConstraint._internal self)).
Proof.
  intro self. split; [|split].
  - intros c n i Hm Hi. unfold MultimodalSamplingConstraint.add.
    rewrite Hm. cbn [bind]. rewrite Hi. reflexivity.
  - intros example i Hcut Hi. unfold MultimodalSamplingConstraint.add.
    destruct example; try discriminate; cbn [bind]; rewrite Hi; reflexivity.
  - intros example self' example' Hadd.
    unfold MultimodalSamplingConstraint.add in Hadd.
    assert (Hint : forall ex,
      (i <- TokenConstraint.add (MultimodalSamplingConstraint._internal self) ex ;;
       Ok (MultimodalSamplingConstraint.set_internal self i, ex))
      = Ok (self', example') ->
      example' = ex
      /\ TokenConstraint.add (MultimodalSamplingConstraint._internal self) ex
         = Ok (MultimodalSamplingConstraint._internal self')
      /\ self' = MultimodalSamplingConstraint.set_internal self
                   (MultimodalSamplingConstraint._internal self')).
    { intros ex H.
      destruct (TokenConstraint.add (MultimodalSamplingConstraint._internal self) ex)
        as [i|e]; [|discriminate].
      cbn [bind] in H. injection H as <- <-. auto. }
    assert (Hcfg : forall ex i,
      TokenConstraint.add (MultimodalSamplingConstraint._internal self) ex = Ok i ->
      TokenConstraint.max_tokens i
      = TokenConstraint.max_tokens (MultimodalSamplingConstraint._internal self)
      /\ TokenConstraint.max_examples i
         = TokenConstraint.max_examples (MultimodalSamplingConstraint._internal self)
      /\ TokenConstraint.quadratic_length i
         = TokenConstraint.quadratic_length (MultimodalSamplingConstraint._internal self)).
    { intros ex i H. unfold TokenConstraint.add in H.
      destruct (TokenConstraint.measure_length ex) as [len|e]; [|discriminate].
      cbn [bind] in H.
      destruct (TokenConstraint.quadratic_correction
                  (MultimodalSamplingConstraint._internal self) len)
        as [size|e]; [|discriminate].
      injection H as <-. auto. }
    destruct example as [c|n|n|o].
    + destruct (MultimodalSamplingConstraint.measure_length self (Audio c))
        as [n|e] eqn:Hm; [|discriminate].
      cbn [bind] in Hadd. apply Hint in Hadd as (-> & Hi & Hs).
      destruct (Hcfg _ _ Hi) as (? & ? & ?).
      rewrite Hs. split; [exists n; auto|]. repeat split; auto.
    + cbn [bind] in Hadd. apply Hint in Hadd as (-> & Hi & Hs).
      destruct (Hcfg _ _ Hi) as (? & ? & ?).
      rewrite Hs. repeat split; auto.
    + cbn [bind] in Hadd. apply Hint in Hadd as (-> & Hi & Hs).
      destruct (Hcfg _ _ Hi) as (? & ? & ?).
      rewrite Hs. repeat split; auto.
    + cbn [bind] in Hadd. apply Hint in Hadd as (-> & Hi & Hs).
      destruct (Hcfg _ _ Hi) as (? & ? & ?).
      rewrite Hs. repeat split; auto.
Qed.

Lemma multimodal_add_caches_then_delegates_witness :
  MultimodalSamplingConstraint.add constraint_100_tokens (cut_of_duration 3)
  = Ok (MultimodalSamplingConstraint.set_internal constraint_100_tokens
          (TokenConstraint.mk (Some 100) (Some 10%Z) None (0 + 3 / (1 # 2)) 1),
        Audio (set_num_tokens (mkCut 3 [] None None) (3 / (1 # 2)))).
Proof.
  apply (proj1 (multimodal_add_caches_then_delegates constraint_100_tokens)
           (mkCut 3 [] None None) (3 / (1 # 2))).
  - reflexivity.
  - reflexivity.
Defined.

(* ===================================================================== *)
(** ** [MultimodalSamplingConstraint.exceeded] *)
(* ===================================================================== *)

Lemma consistent_init (ted : Q) (bs : option Z) (bt qf : option Q) :
  consistent (MultimodalSamplingConstraint.init ted bs bt qf).
Proof. repeat split. Qed.

(** One [add] of an example whose cost is [size]: the total grows by
    [size], the count by one, and nothing else changes. *)
Lemma add_accounts (self : MultimodalSamplingConstraint.t) (example : Example)
    (size : Q) :
  accounted_length self example = Ok size ->
  exists example',
    MultimodalSamplingConstraint.add self example
    = Ok (MultimodalSamplingConstraint.set_internal self
            (TokenConstraint.mk
               (TokenConstraint.max_tokens (MultimodalSamplingConstraint._internal self))
               (TokenConstraint.max_examples (MultimodalSamplingConstraint._internal self))
               (TokenConstraint.quadratic_length (MultimodalSamplingConstraint._internal self))
               (TokenConstraint.current (MultimodalSamplingConstraint._internal self) + size)
               (TokenConstraint.num_examples (MultimodalSamplingConstraint._internal self) + 1)%Z),
          example').
Proof.
  unfold accounted_length, MultimodalSamplingConstraint.add. intro H.
  destruct example as [c|n|n|o]; cbn [MultimodalSamplingConstraint.measure_length] in *.
  - destruct (py_truediv (duration c)
                (MultimodalSamplingConstraint.token_equivalent_duration self))
      as [n|e]; [|discriminate].
    cbn [bind] in *. unfold TokenConstraint.add.
    cbn [TokenConstraint.measure_length get_num_tokens getattr_num_tokens
         set_num_tokens num_tokens bind].
    rewrite H. cbn [bind]. eexists. reflexivity.
  - cbn [bind] in *. unfold TokenConstraint.add.
    cbn [TokenConstraint.measure_length get_num_tokens getattr_num_tokens bind].
    rewrite H. cbn [bind]. eexists. reflexivity.
  - cbn [bind] in *. unfold TokenConstraint.add.
    cbn [TokenConstraint.measure_length get_num_tokens getattr_num_tokens bind].
    rewrite H. cbn [bind]. eexists. reflexivity.
  - discriminate.
Qed.

(** A run of [add] calls on examples of known costs returns, with the
    costs summed onto the total and the count raised by their number. *)
Lemma add_all_accounts (examples : list Example) (sizes : list Q) :
  forall self,
    Forall2 (fun example size => accounted_length self example = Ok size)
      examples sizes ->
    MultimodalSamplingConstraint.add_all self examples
    = Ok (MultimodalSamplingConstraint.set_internal self
            (TokenConstraint.mk
               (TokenConstraint.max_tokens (MultimodalSamplingConstraint._internal self))
               (TokenConstraint.max_examples (MultimodalSamplingConstraint._internal self))
               (TokenConstraint.quadratic_length (MultimodalSamplingConstraint._internal self))
               (fold_left Qplus sizes
                  (TokenConstraint.current (MultimodalSamplingConstraint._internal self)))
               (TokenConstraint.num_examples (MultimodalSamplingConstraint._internal self)
                + Z.of_nat (List.length examples))%Z)).
Proof.
  revert sizes. induction examples as [|example rest IH];
    intros sizes self Hall; inversion Hall as [|? size ? sizes' Hsize Hrest]; subst.
  - destruct self as [ted bs bt qf [mt me ql cur n]]. simpl.
    rewrite Z.add_0_r. reflexivity.
  - destruct (add_accounts self example size Hsize) as (example' & Hadd).
    cbn [MultimodalSamplingConstraint.add_all]. rewrite Hadd. cbn [bind].
    destruct self as [ted bs bt qf [mt me ql cur n]].
    rewrite (IH sizes'); [|exact Hrest].
    unfold MultimodalSamplingConstraint.set_internal.
    cbn [MultimodalSamplingConstraint._internal TokenConstraint.max_tokens
         TokenConstraint.max_examples TokenConstraint.quadratic_length
         TokenConstraint.current TokenConstraint.num_examples
         MultimodalSamplingConstraint.token_equivalent_duration
         MultimodalSamplingConstraint.batch_size
         MultimodalSamplingConstraint.batch_tokens
         MultimodalSamplingConstraint.quadratic_factor fold_left List.length].
    do 3 f_equal. lia.
Qed.

(** C6, as stated, fails: with a quadratic factor configured, one text
    example of 5 tokens keeps the measured length (5) under the maximum
    length (10) and the count (1) under the maximum count (10), and yet
    [exceeded()] is true after it: the total it is charged is 5 + 25. *)
Lemma exceeded_under_measured_budget :
  MultimodalSamplingConstraint.measure_length constraint_quadratic
    (TextExample 5) = Ok 5
  /\ 5 < 10
  /\ (1 < 10)%Z
  /\ exists st,
       MultimodalSamplingConstraint.add_all
         (MultimodalSamplingConstraint.reset constraint_quadratic)
         [TextExample 5] = Ok st
       /\ MultimodalSamplingConstraint.exceeded st = true.
Proof.
  split; [reflexivity|]. split; [reflexivity|]. split; [reflexivity|].
  eexists. split; reflexivity.
Qed.

(** C6, amended. For [MultimodalSamplingConstraint], [exceeded()] is false
    immediately after [reset()] (the bounds being non-negative), and after
    [reset()] and any sequence of [add] calls it is true exactly when the
    accumulated length, each measured length being charged with its
    quadratic penalty [length^2 / quadratic_factor] when a factor is
    configured, is greater than the configured maximum length, or the
    number of examples is greater than the configured maximum count.  So it
    stays false while both stay within their bounds and becomes true as
    soon as either crosses its bound. *)
Theorem exceeded_iff_over_budget :
  forall self,
    consistent self ->
    ((forall m, MultimodalSamplingConstraint.batch_tokens self = Some m -> 0 <= m) ->
     (forall k, MultimodalSamplingConstraint.batch_size self = Some k -> (0 <= k)%Z) ->
     MultimodalSamplingConstraint.exceeded
       (MultimodalSamplingConstraint.reset self) = false)
    /\ (forall examples sizes,
        Forall2 (fun example size => accounted_length self example = Ok size)
          examples sizes ->
        exists st,
          MultimodalSamplingConstraint.add_all
            (MultimodalSamplingConstraint.reset self) examples = Ok st
          /\ (MultimodalSamplingConstraint.exceeded st = true <->
              (exists m, MultimodalSamplingConstraint.batch_tokens self = Some m
                         /\ m < total sizes)
              \/ (exists k, MultimodalSamplingConstraint.batch_size self = Some k
                            /\ (k < Z.of_nat (List.length examples))%Z))).
Proof.
  intros self (Hmt & Hme & Hql).
  destruct self as [ted bs bt qf [mt me ql cur n]].
  cbn in Hmt, Hme, Hql. subst mt me ql. split.
  - intros Hbt Hbs.
    unfold MultimodalSamplingConstraint.exceeded, TokenConstraint.exceeded. cbn.
    apply orb_false_iff. split.
    + destruct bt as [m|]; [|reflexivity].
      specialize (Hbt m eq_refl). qbool. exact Hbt.
    + destruct bs as [k|]; [|reflexivity].
      specialize (Hbs k eq_refl). apply Z.ltb_ge. exact Hbs.
  - intros examples sizes Hall.
    eexists. split.
    + apply (add_all_accounts examples sizes). exact Hall.
    + unfold MultimodalSamplingConstraint.exceeded, TokenConstraint.exceeded,
        total.
      cbn [MultimodalSamplingConstraint.reset MultimodalSamplingConstraint.set_internal
           MultimodalSamplingConstraint._internal TokenConstraint.reset
           TokenConstraint.max_tokens TokenConstraint.max_examples
           TokenConstraint.quadratic_length TokenConstraint.current
           TokenConstraint.num_examples
           MultimodalSamplingConstraint.batch_tokens
           MultimodalSamplingConstraint.batch_size].
      rewrite Z.add_0_l, orb_true_iff. split.
      * intros [H|H].
        -- destruct bt as [m|]; [|discriminate].
           left. exists m. split; [reflexivity|]. qbool. exact H.
        -- destruct bs as [k|]; [|discriminate].
           right. exists k. split; [reflexivity|]. apply Z.ltb_lt. exact H.
      * intros [(m & -> & H)|(k & -> & H)].
        -- left. qbool. exact H.
        -- right. apply Z.ltb_lt. exact H.
Qed.

Lemma exceeded_iff_over_budget_witness :
  MultimodalSamplingConstraint.exceeded
    (MultimodalSamplingConstraint.reset constraint_100_tokens) = false
  /\ exists st,
       MultimodalSamplingConstraint.add_all
         (MultimodalSamplingConstraint.reset constraint_100_tokens)
         [cut_of_duration 3; TextExample 12] = Ok st
       /\ (MultimodalSamplingConstraint.exceeded st = true <->
           (exists m, Some 100 = Some m /\ m < total [3 / (1 # 2); 12])
           \/ (exists k, Some 10%Z = Some k /\ (k < 2)%Z)).
Proof.
  destruct (exceeded_iff_over_budget constraint_100_tokens
              (consistent_init (1 # 2) (Some 10%Z) (Some 100) None))
    as (Hreset & Hrun).
  split.
  - apply Hreset.
    + intros m H. injection H as <-. discriminate.
    + intros k H. injection H as <-. discriminate.
  - apply (Hrun [cut_of_duration 3; TextExample 12] [3 / (1 # 2); 12]).
    repeat constructor.
Defined.

(* ===================================================================== *)
(** ** [FixedBucketBatchSizeConstraint2D.select_bucket] on sorted tables *)
(* ===================================================================== *)

Lemma pair_lt_iff (x b : Q * Q) :
  pair_lt x b = true <->
  fst x < fst b \/ (fst x == fst b /\ snd x < snd b).
Proof.
  unfold pair_lt. cbn [seq_lt].
  destruct (Qeq_bool (fst x) (fst b)) eqn:E0;
    [destruct (Qeq_bool (snd x) (snd b)) eqn:E1|];
    qbool; split; intro H; try discriminate; qbool; lra.
Qed.

Lemma pair_lt_false_iff (x b : Q * Q) :
  pair_lt x b = false <->
  fst b < fst x \/ (fst x == fst b /\ snd b <= snd x).
Proof.
  destruct (pair_lt x b) eqn:E.
  - apply pair_lt_iff in E. split; [discriminate|]. intro H. exfalso. lra.
  - split; [|reflexivity]. intros _.
    destruct (Qlt_le_dec (fst b) (fst x)); [auto|].
    destruct (Qlt_le_dec (fst x) (fst b)) as [H|H].
    + assert (pair_lt x b = true) by (apply pair_lt_iff; auto). congruence.
    + right. split; [lra|].
      destruct (Qlt_le_dec (snd x) (snd b)) as [H1|H1]; [|exact H1].
      assert (pair_lt x b = true) by (apply pair_lt_iff; right; split; lra).
      congruence.
Qed.

(** [x < b] and [b <= c] give [x < c]. *)
Lemma pair_lt_le_trans (x b c : Q * Q) :
  pair_lt x b = true -> pair_lt c b = false -> pair_lt x c = true.
Proof.
  rewrite !pair_lt_iff, pair_lt_false_iff. intros H1 H2. lra.
Qed.

(** [c <= b] and [b <= x] give [c <= x]. *)
Lemma pair_le_trans (x b c : Q * Q) :
  pair_lt x b = false -> pair_lt b c = false -> pair_lt x c = false.
Proof.
  rewrite !pair_lt_false_iff. intros H1 H2. lra.
Qed.

(** In a sorted table the head is below every later entry. *)
Lemma sorted_table_head (a : Q * Q) (rest : list (Q * Q)) :
  sorted_table (a :: rest) = true ->
  forall b, In b rest -> pair_lt b a = false.
Proof.
  revert a. induction rest as [|c rest IH]; intros a Hs b Hin; [contradiction|].
  cbn [sorted_table] in Hs. apply andb_true_iff in Hs as [Hca Hs].
  apply negb_true_iff in Hca.
  destruct Hin as [<-|Hin]; [exact Hca|].
  apply (pair_le_trans b c a); [|exact Hca].
  apply (IH c Hs b Hin).
Qed.

Lemma sorted_table_tail (a : Q * Q) (rest : list (Q * Q)) :
  sorted_table (a :: rest) = true -> sorted_table rest = true.
Proof.
  destruct rest as [|b rest]; [reflexivity|].
  cbn [sorted_table]. intro H. apply andb_true_iff in H as [_ H]. exact H.
Qed.

(** What [sorted_table] means position by position. *)
Lemma sorted_table_nth (tbl : list (Q * Q)) :
  sorted_table tbl = true ->
  forall i j bi bj,
    (i <= j)%nat -> nth_error tbl i = Some bi -> nth_error tbl j = Some bj ->
    pair_lt bj bi = false.
Proof.
  induction tbl as [|a rest IH]; intros Hs i j bi bj Hij Hi Hj.
  - destruct i; discriminate.
  - destruct i as [|i], j as [|j]; cbn [nth_error] in Hi, Hj.
    + injection Hi as <-. injection Hj as <-.
      apply pair_lt_false_iff. right. split; [reflexivity|apply Qle_refl].
    + injection Hi as <-.
      apply (sorted_table_head a rest Hs). eapply nth_error_In. exact Hj.
    + lia.
    + apply (IH (sorted_table_tail a rest Hs) i j); [lia|assumption|assumption].
Qed.

Lemma table2d_length (tbl : list (Q * Q)) :
  List.length (table2d tbl) = List.length tbl.
Proof. apply length_map. Qed.

Lemma table2d_item (tbl : list (Q * Q)) (i : nat) (b : Q * Q) :
  nth_error tbl i = Some b -> list_item (table2d tbl) i = Ok (pair_val b).
Proof.
  intro H. apply list_item_Some. unfold table2d.
  rewrite nth_error_map, H. reflexivity.
Qed.

Lemma nth_error_lt {A : Type} (l : list A) (i : nat) :
  (i < List.length l)%nat -> exists a, nth_error l i = Some a.
Proof.
  intro H. destruct (nth_error l i) as [a|] eqn:E; [eauto|].
  apply nth_error_None in E. lia.
Qed.

(** On a sorted table of pairs the loop of [bisect_right] returns, and
    returns the position that separates the entries not above the example
    from those above it. *)
Lemma bisect_loop_sorted (tbl : list (Q * Q)) (x : Q * Q) :
  sorted_table tbl = true ->
  forall n lo hi,
    (hi - lo = n)%nat -> (lo <= hi <= List.length tbl)%nat ->
    (forall j b, (j < lo)%nat -> nth_error tbl j = Some b -> pair_lt x b = false) ->
    (forall j b, (hi <= j)%nat -> nth_error tbl j = Some b -> pair_lt x b = true) ->
    exists r,
      bisect_loop (table2d tbl) (pair_val x) lo hi = Ok r
      /\ (r <= List.length tbl)%nat
      /\ (forall j b, (j < r)%nat -> nth_error tbl j = Some b -> pair_lt x b = false)
      /\ (forall j b, (r <= j)%nat -> nth_error tbl j = Some b -> pair_lt x b = true).
Proof.
  intros Hs n. induction n as [n IH] using lt_wf_ind.
  intros lo hi Hn Hb Hlo Hhi. rewrite bisect_loop_eq.
  destruct (Nat.ltb_spec lo hi) as [Hlt|Hge].
  - pose proof (div2_mid lo hi Hlt) as Hmid.
    destruct (nth_error_lt tbl (Nat.div2 (lo + hi))) as (bm & Hbm); [lia|].
    rewrite (table2d_item _ _ _ Hbm). cbn [bind].
    change (py_lt (pair_val x) (pair_val bm)) with (Ok (pair_lt x bm)).
    cbn [bind]. destruct (pair_lt x bm) eqn:Hx.
    + apply (IH (Nat.div2 (lo + hi) - lo)%nat); [lia|reflexivity|lia|exact Hlo|].
      intros j b Hj Hjb.
      apply (pair_lt_le_trans x bm b Hx).
      apply (sorted_table_nth tbl Hs (Nat.div2 (lo + hi)) j); assumption.
    + apply (IH (hi - S (Nat.div2 (lo + hi)))%nat); [lia|reflexivity|lia| |exact Hhi].
      intros j b Hj Hjb.
      apply (pair_le_trans x bm b Hx).
      apply (sorted_table_nth tbl Hs j (Nat.div2 (lo + hi))); [lia|assumption|assumption].
  - exists lo. split; [reflexivity|]. split; [lia|]. split; [exact Hlo|].
    intros j b Hj. apply Hhi. lia.
Qed.

Lemma bisect_right_sorted (tbl : list (Q * Q)) (x : Q * Q) :
  sorted_table tbl = true ->
  exists r,
    bisect_right (table2d tbl) (pair_val x) = Ok r
    /\ (r <= List.length tbl)%nat
    /\ (forall j b, (j < r)%nat -> nth_error tbl j = Some b -> pair_lt x b = false)
    /\ (forall j b, (r <= j)%nat -> nth_error tbl j = Some b -> pair_lt x b = true).
Proof.
  intro Hs. unfold bisect_right. rewrite table2d_length.
  apply (bisect_loop_sorted tbl x Hs (List.length tbl - 0)%nat); [reflexivity|lia| |].
  - intros j b Hj. lia.
  - intros j b Hj Hjb. apply nth_error_None in Hj. congruence.
Qed.

(** On a table of pairs the condition of the refinement loop never raises
    and is [advance_condition]. *)
Lemma refine_cond_pairs (tbl : list (Q * Q)) (x : Q * Q) (next_idx : nat)
    (next : Q * Q) (bin_dim0 bin_dim1 : Q) :
  nth_error tbl next_idx = Some next ->
  FixedBucketBatchSizeConstraint2D.refine_cond (table2d tbl) (pair_val x)
    next_idx bin_dim0 bin_dim1
  = Ok (advance_condition bin_dim0 bin_dim1 next (snd x)).
Proof.
  intro H. unfold FixedBucketBatchSizeConstraint2D.refine_cond.
  rewrite (table2d_item _ _ _ H). unfold advance_condition, pair_val.
  cbn [bind py_and py_or py_item nth_error].
  destruct (Qeq_bool (fst next) bin_dim0); [|reflexivity].
  cbn [bind andb].
  destruct (Qlt_bool bin_dim1 (snd x)); cbn [bind andb orb];
    [destruct (Qle_bool (snd x) (snd next)); reflexivity|reflexivity].
Qed.

(** The refinement loop on a sorted table of pairs, started at a bucket
    [c]: it returns a bucket [br] with the first-dimension boundary of
    [c]; every bucket it went past has a second-dimension boundary below
    the example's; and it stopped either because [br] is wide enough in the
    second dimension, or because no later bucket shares the first-dimension
    boundary. *)
Lemma refine_loop_sorted (tbl : list (Q * Q)) (x : Q * Q) :
  sorted_table tbl = true ->
  forall n idx c,
    (List.length tbl - idx = n)%nat ->
    nth_error tbl idx = Some c ->
    exists r br,
      FixedBucketBatchSizeConstraint2D.refine_loop (table2d tbl) (pair_val x)
        idx (fst c) (snd c) = Ok r
      /\ (idx <= r)%nat
      /\ nth_error tbl r = Some br
      /\ fst br == fst c
      /\ (forall j bj, (idx <= j < r)%nat -> nth_error tbl j = Some bj ->
                       snd bj < snd x)
      /\ (snd x <= snd br
          \/ forall j bj, (r < j)%nat -> nth_error tbl j = Some bj ->
                          ~ fst bj == fst c).
Proof.
  intros Hs n. induction n as [n IH] using lt_wf_ind.
  intros idx c Hn Hc. rewrite refine_loop_eq, table2d_length.
  destruct (Nat.ltb_spec (S idx) (List.length tbl)) as [Hlt|Hge].
  - destruct (nth_error_lt tbl (S idx) Hlt) as (nb & Hnb).
    rewrite (refine_cond_pairs tbl x (S idx) nb _ _ Hnb). cbn [bind].
    pose proof (sorted_table_nth tbl Hs idx (S idx) c nb (Nat.le_succ_diag_r idx) Hc Hnb)
      as Hord.
    apply pair_lt_false_iff in Hord.
    destruct (advance_condition (fst c) (snd c) nb (snd x)) eqn:Hadv.
    + rewrite (table2d_item _ _ _ Hnb). cbn [bind py_unpack2 pair_val].
      unfold advance_condition in Hadv.
      apply andb_true_iff in Hadv as [H0 H1]. apply orb_true_iff in H1.
      rewrite andb_true_iff in H1. qbool.
      assert (Hcx : snd c < snd x).
      { destruct H1 as [[H1 H2]|H1]; qbool; lra. }
      destruct (IH (List.length tbl - S idx)%nat ltac:(lia) (S idx) nb eq_refl Hnb)
        as (r & br & Hr & Hle & Hbr & Hd0 & Hpast & Hstop).
      exists r, br. split; [exact Hr|]. split; [lia|]. split; [exact Hbr|].
      split; [lra|]. split.
      * intros j bj Hj Hbj.
        destruct (Nat.eq_dec j idx) as [->|Hne].
        -- rewrite Hc in Hbj. injection Hbj as <-. exact Hcx.
        -- apply (Hpast j bj); [lia|exact Hbj].
      * destruct Hstop as [Hstop|Hstop]; [left; exact Hstop|right].
        intros j bj Hj Hbj E. apply (Hstop j bj Hj Hbj). lra.
    + exists idx, c. split; [reflexivity|]. split; [lia|]. split; [exact Hc|].
      split; [reflexivity|]. split; [intros j bj Hj; lia|].
      unfold advance_condition in Hadv.
      destruct (Qeq_bool (fst nb) (fst c)) eqn:H0.
      * left. cbn [andb] in Hadv. apply orb_false_iff in Hadv as [H1 H2].
        apply andb_false_iff in H1. qbool.
        destruct H1 as [H1|H1]; qbool; lra.
      * right. qbool. intros j bj Hj Hbj E.
        pose proof (sorted_table_nth tbl Hs (S idx) j nb bj Hj Hnb Hbj) as Hord'.
        apply pair_lt_false_iff in Hord'. lra.
  - exists idx, c. split; [reflexivity|]. split; [lia|]. split; [exact Hc|].
    split; [reflexivity|]. split; [intros j bj Hj; lia|].
    right. intros j bj Hj Hbj. assert (Hnone : nth_error tbl j = None)
      by (apply nth_error_None; lia). congruence.
Qed.

Lemma bucketing_2d_enabled_pairs (tbl : list (Q * Q)) (batch_sizes : list Z) :
  tbl <> [] ->
  FixedBucketBatchSizeConstraint2D.bucketing_2d_enabled
    (FixedBucketBatchSizeConstraint2D.mk (table2d tbl) batch_sizes) = Ok true.
Proof.
  destruct tbl as [|a rest]; [congruence|]. reflexivity.
Qed.

(** C1, as stated, fails.  With the table [(2,2),(2,4)] and an example of
    length (1.5, 4), [select_bucket] moves from bucket 0 to bucket 1 and
    returns 1, while the condition as the specification words it does not hold
    there: 4 is neither strictly between 2 and 4 nor above 4.  Stopping at
    bucket 0, as the worded loop would, leaves the example in a bucket too
    small for it.  With the same table and an example of length (2, 2),
    bucket 0 contains the example in both dimensions, boundaries included,
    yet [select_bucket] returns 1. *)
Lemma select_bucket_2d_not_as_worded :
  (forall super batch_sizes,
      FixedBucketBatchSizeConstraint2D.select_bucket super
        (FixedBucketBatchSizeConstraint2D.mk (table2d buckets_2_2_4) batch_sizes)
        (table2d buckets_2_2_4) None (Some (pair_val (3 # 2, 4))) = Ok 1%nat)
  /\ advance_condition 2 2 (2, 4) 4 = true
  /\ advance_condition_spec 2 2 (2, 4) 4 = false
  /\ contains (3 # 2, 4) (2, 2) = false
  /\ (forall super batch_sizes,
      FixedBucketBatchSizeConstraint2D.select_bucket super
        (FixedBucketBatchSizeConstraint2D.mk (table2d buckets_2_2_4) batch_sizes)
        (table2d buckets_2_2_4) None (Some (pair_val (2, 2))) = Ok 1%nat)
  /\ contains (2, 2) (2, 2) = true.
Proof.
  repeat split; reflexivity.
Qed.

(** C1, amended.  For [FixedBucketBatchSizeConstraint2D] with a sorted 2D
    boundary table, [select_bucket] first locates a candidate bucket by
    binary search on the boundary tuples, then advances to the next bucket
    while a next bucket exists, it shares the first-dimension boundary of
    the current bucket, and either the example's second dimension is above
    the current bucket's second-dimension boundary and at most the next
    bucket's, or it still exceeds the next bucket's.  Whenever some bucket
    sharing the candidate's first-dimension boundary fits the example (it
    compares above the example as a tuple, and its second-dimension
    boundary is at least the example's second dimension), the returned
    index is the smallest such bucket, by position and by both
    dimensions. *)
Theorem select_bucket_2d_smallest_fitting :
  forall super batch_sizes tbl x,
    sorted_table tbl = true ->
    (forall next_idx next bin_dim0 bin_dim1,
        nth_error tbl next_idx = Some next ->
        FixedBucketBatchSizeConstraint2D.refine_cond (table2d tbl) (pair_val x)
          next_idx bin_dim0 bin_dim1
        = Ok (advance_condition bin_dim0 bin_dim1 next (snd x)))
    /\ (forall b, fst x < fst b -> fits x b = contains x b)
    /\ (forall i0 c,
        bisect_right (table2d tbl) (pair_val x) = Ok i0 ->
        nth_error tbl i0 = Some c ->
        (exists j b, nth_error tbl j = Some b /\ fst b == fst c
                     /\ fits x b = true) ->
        exists r br,
          FixedBucketBatchSizeConstraint2D.select_bucket super
            (FixedBucketBatchSizeConstraint2D.mk (table2d tbl) batch_sizes)
            (table2d tbl) None (Some (pair_val x)) = Ok r
          /\ nth_error tbl r = Some br
          /\ fst br == fst c
          /\ fits x br = true
          /\ forall j b,
               nth_error tbl j = Some b -> fst b == fst c -> fits x b = true ->
               (r <= j)%nat /\ pair_lt b br = false).
Proof.
  intros super batch_sizes tbl x Hs. split; [|split].
  - intros next_idx next bin_dim0 bin_dim1. apply refine_cond_pairs.
  - intros b Hlt. unfold fits, contains. f_equal.
    assert (H1 : pair_lt x b = true) by (apply pair_lt_iff; auto).
    assert (H2 : Qle_bool (fst x) (fst b) = true) by (qbool; lra).
    rewrite H1, H2. reflexivity.
  - intros i0 c Hbis Hc Hex.
    destruct (bisect_right_sorted tbl x Hs) as (r0 & Hr0 & _ & Hbelow & Habove).
    rewrite Hbis in Hr0. injection Hr0 as <-.
    destruct (refine_loop_sorted tbl x Hs (List.length tbl - i0)%nat i0 c eq_refl Hc)
      as (r & br & Hr & Hle & Hbr & Hd0 & Hpast & Hstop).
    (* a fitting bucket of the group is not before the returned one *)
    assert (Hpos : forall j b,
               nth_error tbl j = Some b -> fits x b = true -> (r <= j)%nat).
    { intros j b Hb Hfit. unfold fits in Hfit.
      apply andb_true_iff in Hfit as [Hlt Hdim1]. qbool.
      assert (Hij : (i0 <= j)%nat).
      { destruct (Nat.le_gt_cases i0 j) as [H|H]; [exact H|].
        rewrite (Hbelow j b H Hb) in Hlt. discriminate. }
      destruct (Nat.le_gt_cases r j) as [H|H]; [exact H|].
      pose proof (Hpast j b (conj Hij H) Hb). lra. }
    exists r, br.
    assert (Htbl : tbl <> []) by (intros ->; destruct i0; discriminate).
    split.
    { unfold FixedBucketBatchSizeConstraint2D.select_bucket.
      rewrite (bucketing_2d_enabled_pairs tbl batch_sizes Htbl).
      cbn [bind negb FixedBucketBatchSizeConstraint2D.max_seq_len_buckets].
      rewrite Hbis. cbn [bind]. rewrite (table2d_item _ _ _ Hc).
      cbn [bind py_unpack2 pair_val]. exact Hr. }
    split; [exact Hbr|]. split; [exact Hd0|].
    assert (Hfit : fits x br = true).
    { unfold fits. apply andb_true_iff. split; [apply (Habove r br Hle Hbr)|].
      qbool. destruct Hstop as [Hstop|Hstop]; [exact Hstop|].
      destruct Hex as (j & b & Hb & Hbc & Hfitb).
      pose proof (Hpos j b Hb Hfitb) as Hrj.
      destruct (Nat.eq_dec j r) as [->|Hne].
      - rewrite Hbr in Hb. injection Hb as <-. unfold fits in Hfitb.
        apply andb_true_iff in Hfitb as [_ H]. qbool. exact H.
      - exfalso. apply (Hstop j b ltac:(lia) Hb Hbc). }
    split; [exact Hfit|].
    intros j b Hb Hbc Hfitb.
    pose proof (Hpos j b Hb Hfitb) as Hrj.
    split; [exact Hrj|].
    apply (sorted_table_nth tbl Hs r j br b Hrj Hbr Hb).
Qed.

Lemma select_bucket_2d_smallest_fitting_witness :
  exists r br,
    FixedBucketBatchSizeConstraint2D.select_bucket
      FixedBucketBatchSizeConstraint.select_bucket
      (FixedBucketBatchSizeConstraint2D.mk (table2d pairs_2x2) [8; 4; 2; 1]%Z)
      (table2d pairs_2x2) None (Some (pair_val (3 # 2, 3))) = Ok r
    /\ nth_error pairs_2x2 r = Some br
    /\ fst br == fst (2, 2)
    /\ fits (3 # 2, 3) br = true
    /\ forall j b,
         nth_error pairs_2x2 j = Some b -> fst b == fst (2, 2) ->
         fits (3 # 2, 3) b = true ->
         (r <= j)%nat /\ pair_lt b br = false.
Proof.
  apply (proj2 (proj2 (select_bucket_2d_smallest_fitting
                  FixedBucketBatchSizeConstraint.select_bucket
                  [8; 4; 2; 1]%Z pairs_2x2 (3 # 2, 3) eq_refl))
           2%nat (2, 2) eq_refl eq_refl).
  exists 3%nat, (2, 4). repeat split.
Defined.

(* ===================================================================== *)
(** * Further properties of the dataloader code *)
(* ===================================================================== *)

(** ** [_measure_tokens] and [_measure_tps] *)

Lemma fold_left_Qplus_nonneg (l : list Q) (acc : Q) :
  0 <= acc -> Forall (fun q => 0 <= q) l -> 0 <= fold_left Qplus l acc.
Proof.
  revert acc. induction l as [|q l IH]; intros acc Hacc Hall; [exact Hacc|].
  inversion Hall as [|? ? Hq Hl]; subst. cbn [fold_left].
  apply IH; [lra|exact Hl].
Qed.

Lemma len_tokens_nonneg (l : list Z) : 0 <= len_tokens l.
Proof.
  unfold len_tokens. change 0 with (inject_Z 0).
  rewrite <- Zle_Qle. lia.
Qed.

Lemma supervisions_with_tokens_nil (sups : list Supervision) :
  supervisions_with_tokens sups = [] <->
  Forall (fun s => tokens s = None) sups.
Proof.
  induction sups as [|s sups IH]; cbn [supervisions_with_tokens flat_map].
  - split; [constructor|reflexivity].
  - destruct (tokens s) as [t|] eqn:E; cbn [app].
    + split; [discriminate|]. intro H. inversion H; congruence.
    + rewrite IH. split; intro H.
      * constructor; assumption.
      * inversion H; assumption.
Qed.

(** The token count of a cut is never negative. *)
Lemma measure_tokens_nonneg (c : Cut) (n : Q) :
  _measure_tokens (Audio c) = Ok n -> 0 <= n.
Proof.
  unfold _measure_tokens.
  destruct (tokenized_prompted_transcript c) as [t|].
  - intro H. injection H as <-. apply len_tokens_nonneg.
  - destruct (supervisions_with_tokens (supervisions c)) as [|t ts];
      cbn [List.length Nat.ltb Nat.leb py_assert bind]; [discriminate|].
    intro H. injection H as <-.
    apply fold_left_Qplus_nonneg;
      [pose proof (len_tokens_nonneg t); first [apply Qle_refl|lra]|].
    apply Forall_forall. intros q Hq. apply in_map_iff in Hq as (l & <- & _).
    apply len_tokens_nonneg.
Qed.

(** Tokens per second of a cut of positive duration are never negative. *)
Lemma measure_tps_nonneg (c : Cut) (tps : Q) :
  0 < duration c -> _measure_tps (Audio c) = Ok tps -> 0 <= tps.
Proof.
  intros Hd. unfold _measure_tps.
  destruct (_measure_tokens (Audio c)) as [n|e] eqn:Hn; [|discriminate].
  cbn [bind get_duration]. unfold py_truediv.
  destruct (Qeq_bool (duration c) 0); [discriminate|].
  intro H. injection H as <-. unfold Qdiv.
  apply Qmult_le_0_compat; [exact (measure_tokens_nonneg c n Hn)|].
  apply Qinv_le_0_compat. apply Qlt_le_weak. exact Hd.
Qed.

(** X1. [_measure_tokens] fails exactly on a cut that has no prompted
    transcript and no supervision with tokens, and then with the assertion
    error about untokenized supervisions; in every other case it returns a
    count that is not negative. *)
Theorem measure_tokens_fails_iff_untokenized :
  forall c,
    (tokenized_prompted_transcript c = None
     /\ Forall (fun s => tokens s = None) (supervisions c)
     <-> exists msg, _measure_tokens (Audio c) = Raise (AssertionError msg))
    /\ (forall e, _measure_tokens (Audio c) = Raise e ->
                  exists msg, e = AssertionError msg)
    /\ (forall n, _measure_tokens (Audio c) = Ok n -> 0 <= n).
Proof.
  intro c. unfold _measure_tokens.
  destruct (tokenized_prompted_transcript c) as [t|] eqn:Et.
  - split; [|split].
    + split; [intros [H _]; discriminate|intros [msg H]; discriminate].
    + intros e H. discriminate.
    + intros n H. injection H as <-. apply len_tokens_nonneg.
  - destruct (supervisions_with_tokens (supervisions c)) as [|t ts] eqn:Es.
    + cbn [List.length Nat.ltb Nat.leb py_assert bind].
      split; [|split].
      * split; [eauto|]. intros _. split; [reflexivity|].
        apply supervisions_with_tokens_nil. exact Es.
      * intros e H. injection H as <-. eauto.
      * intros n H. discriminate.
    + cbn [List.length Nat.ltb Nat.leb py_assert bind].
      split; [|split].
      * split.
        -- intros [_ H]. apply supervisions_with_tokens_nil in H. congruence.
        -- intros [msg H]. discriminate.
      * intros e H. discriminate.
      * intros n H. apply (measure_tokens_nonneg c n).
        unfold _measure_tokens. rewrite Et, Es. exact H.
Qed.

Lemma measure_tokens_fails_iff_untokenized_witness :
  _measure_tokens
    (Audio (mkCut 3 [mkSupervision (Some [1; 2]%Z); mkSupervision None;
                     mkSupervision (Some [7; 8; 9]%Z)] None None)) = Ok 5
  /\ 0 <= 5.
Proof.
  split; [reflexivity|].
  apply (proj2 (proj2 (measure_tokens_fails_iff_untokenized
                  (mkCut 3 [mkSupervision (Some [1; 2]%Z); mkSupervision None;
                            mkSupervision (Some [7; 8; 9]%Z)] None None))) 5).
  reflexivity.
Defined.

(** X2. [_measure_tps] measures the tokens before it divides: on an
    untokenized cut it fails with the assertion error of
    [_measure_tokens], whatever the duration; on a tokenized cut of zero
    duration it raises [ZeroDivisionError]; otherwise it returns the token
    count divided by the duration, which is not negative when the duration
    is positive. *)
Theorem measure_tps_errors_and_value :
  forall c,
    (forall e, _measure_tokens (Audio c) = Raise e ->
               _measure_tps (Audio c) = Raise e)
    /\ (forall n, _measure_tokens (Audio c) = Ok n ->
          (duration c == 0 -> _measure_tps (Audio c) = Raise ZeroDivisionError)
          /\ (~ duration c == 0 -> _measure_tps (Audio c) = Ok (n / duration c))
          /\ (0 < duration c -> 0 <= n / duration c)).
Proof.
  intro c. unfold _measure_tps. split.
  - intros e ->. reflexivity.
  - intros n Hn. rewrite Hn. cbn [bind get_duration]. unfold py_truediv.
    split; [|split].
    + intro H. apply Qeq_bool_iff in H. rewrite H. reflexivity.
    + intro H. apply Qeq_bool_false_iff in H. rewrite H. reflexivity.
    + intro Hd. unfold Qdiv.
      apply Qmult_le_0_compat; [exact (measure_tokens_nonneg c n Hn)|].
      apply Qinv_le_0_compat. apply Qlt_le_weak. exact Hd.
Qed.

Lemma measure_tps_errors_and_value_witness :
  _measure_tps (Audio (mkCut 2 [mkSupervision (Some [1; 2; 3]%Z)] None None))
  = Ok (fold_left Qplus [len_tokens [1; 2; 3]%Z] 0 / 2).
Proof.
  apply (proj1 (proj2 (proj2 (measure_tps_errors_and_value
                  (mkCut 2 [mkSupervision (Some [1; 2; 3]%Z)] None None))
                  (fold_left Qplus [len_tokens [1; 2; 3]%Z] 0) eq_refl))).
  intro H. discriminate H.
Defined.

(** ** The sampling filters *)

Lemma bound_le_trans (a b c : Bound) :
  bound_le a b = true -> bound_le b c = true -> bound_le a c = true.
Proof.
  destruct a as [x|], b as [y|], c as [z|]; cbn [bound_le];
    try reflexivity; try discriminate.
  intros H1 H2. qbool. lra.
Qed.

(** X3. [DurationFilter] never rejects an example that is not a cut; a cut
    passes exactly when its duration is within the two bounds, so a filter
    whose lower bound is above its upper bound rejects every cut, and
    whatever passes a filter passes every filter with wider bounds.  With
    the configuration defaults (-1 and infinity) every cut of non-negative
    duration passes. *)
Theorem duration_filter_range :
  forall f,
    (forall example, isinstance_Cut example = false ->
                     DurationFilter.call f example = true)
    /\ (forall c,
        DurationFilter.call f (Audio c) = true <->
        bound_le (DurationFilter.d_min f) (Finite (duration c)) = true
        /\ bound_le (Finite (duration c)) (DurationFilter.d_max f) = true)
    /\ (bound_lt (DurationFilter.d_max f) (DurationFilter.d_min f) = true ->
        forall c, DurationFilter.call f (Audio c) = false)
    /\ (forall f' example,
        bound_le (DurationFilter.d_min f') (DurationFilter.d_min f) = true ->
        bound_le (DurationFilter.d_max f) (DurationFilter.d_max f') = true ->
        DurationFilter.call f example = true ->
        DurationFilter.call f' example = true)
    /\ (forall c, 0 <= duration c ->
        DurationFilter.call (DurationFilter.mk (Finite (-1)) PosInf) (Audio c)
        = true).
Proof.
  intro f. split; [|split; [|split; [|split]]].
  - intros [c| | |o] H; [discriminate|reflexivity..].
  - intro c. cbn [DurationFilter.call]. apply andb_true_iff.
  - intros Hempty c. cbn [DurationFilter.call].
    destruct (bound_le (DurationFilter.d_min f) (Finite (duration c))) eqn:H1;
      [|reflexivity].
    destruct (bound_le (Finite (duration c)) (DurationFilter.d_max f)) eqn:H2;
      [|reflexivity].
    unfold bound_lt in Hempty. apply negb_true_iff in Hempty.
    rewrite (bound_le_trans _ _ _ H1 H2) in Hempty. discriminate.
  - intros f' [c| | |o] Hmin Hmax H; try reflexivity.
    cbn [DurationFilter.call] in *. apply andb_true_iff in H as [H1 H2].
    apply andb_true_iff. split.
    + exact (bound_le_trans _ _ _ Hmin H1).
    + exact (bound_le_trans _ _ _ H2 Hmax).
  - intros c Hd. cbn [DurationFilter.call DurationFilter.d_min
                      DurationFilter.d_max bound_le].
    rewrite andb_true_r. qbool. lra.
Qed.

Lemma duration_filter_range_witness :
  DurationFilter.call (DurationFilter.mk (Finite 0) (Finite 40))
    (cut_of_duration 15) = true.
Proof.
  apply (proj1 (proj2 (proj2 (proj2 (duration_filter_range
                  (DurationFilter.mk (Finite 1) (Finite 20))))))
           (DurationFilter.mk (Finite 0) (Finite 40)) (cut_of_duration 15));
    reflexivity.
Defined.

(** X4. [TokenPerSecondFilter(tps_min, tps_max)] can be built exactly
    when [tps_min <= tps_max]; otherwise the constructor fails on its
    assertion.  The filter it builds keeps the two bounds and is enabled
    exactly when [tps_min > 0] or [tps_max] is finite. *)
Theorem tps_filter_init :
  forall tps_min tps_max,
    (bound_le tps_min tps_max = true ->
     TokenPerSecondFilter.init tps_min tps_max
     = Ok (TokenPerSecondFilter.mk tps_min tps_max
             (bound_lt (Finite 0) tps_min || bound_lt tps_max PosInf)))
    /\ (bound_le tps_min tps_max = false ->
        TokenPerSecondFilter.init tps_min tps_max = Raise (AssertionError ""))
    /\ (forall f, TokenPerSecondFilter.init tps_min tps_max = Ok f ->
        (TokenPerSecondFilter.enabled f = false <->
         bound_le tps_min (Finite 0) = true /\ tps_max = PosInf)).
Proof.
  intros tps_min tps_max. unfold TokenPerSecondFilter.init. split; [|split].
  - intros ->. reflexivity.
  - intros ->. reflexivity.
  - intros f H. destruct (bound_le tps_min tps_max); [|discriminate].
    cbn [py_assert bind] in H. injection H as <-.
    cbn [TokenPerSecondFilter.enabled]. unfold bound_lt.
    rewrite orb_false_iff, !negb_false_iff. split.
    + intros [H1 H2]. split; [exact H1|].
      destruct tps_max; [discriminate|reflexivity].
    + intros [H1 ->]. split; [exact H1|reflexivity].
Qed.

Lemma tps_filter_init_witness :
  TokenPerSecondFilter.init (Finite (-1)) PosInf
  = Ok (TokenPerSecondFilter.mk (Finite (-1)) PosInf false)
  /\ TokenPerSecondFilter.init (Finite 5) (Finite 2) = Raise (AssertionError "").
Proof.
  split.
  - apply (proj1 (tps_filter_init (Finite (-1)) PosInf)). reflexivity.
  - apply (proj1 (proj2 (tps_filter_init (Finite 5) (Finite 2)))). reflexivity.
Defined.

(** X5. A [TokenPerSecondFilter] that is not enabled ([tps_min <= 0] and
    [tps_max] infinite, as with the configuration defaults) lets every
    example through without measuring it: an untokenized cut or a cut of
    zero duration passes instead of raising.  The shortcut loses nothing:
    on a cut of positive duration whose tokens per second can be measured,
    the range test it skips would have passed as well. *)
Theorem tps_filter_disabled_passes_all :
  forall tps_min tps_max f,
    TokenPerSecondFilter.init tps_min tps_max = Ok f ->
    bound_le tps_min (Finite 0) = true ->
    tps_max = PosInf ->
    (forall example, TokenPerSecondFilter.call f example = Ok true)
    /\ (forall c tps,
        0 < duration c ->
        _measure_tps (Audio c) = Ok tps ->
        bound_le tps_min (Finite tps) && bound_le (Finite tps) tps_max = true).
Proof.
  intros tps_min tps_max f Hinit Hmin Hmax.
  assert (Hoff : TokenPerSecondFilter.enabled f = false).
  { unfold TokenPerSecondFilter.init in Hinit.
    destruct (bound_le tps_min tps_max); [|discriminate].
    cbn [py_assert bind] in Hinit. injection Hinit as <-.
    cbn [TokenPerSecondFilter.enabled]. unfold bound_lt.
    rewrite Hmin, Hmax. reflexivity. }
  split.
  - intro example. unfold TokenPerSecondFilter.call. rewrite Hoff.
    rewrite orb_true_r. reflexivity.
  - intros c tps Hd Htps. subst tps_max.
    pose proof (measure_tps_nonneg c tps Hd Htps) as Hnn.
    apply andb_true_iff. split.
    + apply (bound_le_trans tps_min (Finite 0) (Finite tps) Hmin).
      cbn [bound_le]. qbool. exact Hnn.
    + reflexivity.
Qed.

Lemma tps_filter_disabled_passes_all_witness :
  TokenPerSecondFilter.call
    (TokenPerSecondFilter.mk (Finite (-1)) PosInf false)
    (cut_of_duration 0) = Ok true.
Proof.
  apply (proj1 (tps_filter_disabled_passes_all (Finite (-1)) PosInf
                  (TokenPerSecondFilter.mk (Finite (-1)) PosInf false)
                  eq_refl eq_refl eq_refl)).
Defined.

(** X6. An enabled [TokenPerSecondFilter] never rejects an example that is
    not a cut.  On a cut it measures the tokens per second first: it fails
    on the assertion of [_measure_tokens] when the cut has no prompted
    transcript and no supervision with tokens, raises [ZeroDivisionError]
    on a tokenized cut of zero duration, and otherwise answers with the
    range test [tps_min <= tps <= tps_max] on the value [_measure_tps]
    returned, without any other error. *)
Theorem tps_filter_enabled :
  forall f,
    TokenPerSecondFilter.enabled f = true ->
    (forall example, isinstance_Cut example = false ->
                     TokenPerSecondFilter.call f example = Ok true)
    /\ (forall c,
        tokenized_prompted_transcript c = None ->
        Forall (fun s => tokens s = None) (supervisions c) ->
        TokenPerSecondFilter.call f (Audio c)
        = Raise (AssertionError
            "Cannot measure tokens-per-second with untokenized supervisions. Did you forget to provide the tokenizer argument to get_lhotse_dataloader_from_config() method?"))
    /\ (forall c n,
        _measure_tokens (Audio c) = Ok n ->
        duration c == 0 ->
        TokenPerSecondFilter.call f (Audio c) = Raise ZeroDivisionError)
    /\ (forall c tps,
        _measure_tps (Audio c) = Ok tps ->
        TokenPerSecondFilter.call f (Audio c)
        = Ok (bound_le (TokenPerSecondFilter.tps_min f) (Finite tps)
              && bound_le (Finite tps) (TokenPerSecondFilter.tps_max f))).
Proof.
  intros f Hon. unfold TokenPerSecondFilter.call. rewrite Hon.
  split; [|split; [|split]].
  - intros example ->. reflexivity.
  - intros c Ht Hs. cbn [isinstance_Cut negb orb].
    unfold _measure_tps, _measure_tokens. rewrite Ht.
    rewrite (proj2 (supervisions_with_tokens_nil (supervisions c)) Hs).
    reflexivity.
  - intros c n Hn Hd. cbn [isinstance_Cut negb orb].
    unfold _measure_tps. rewrite Hn. cbn [bind get_duration].
    unfold py_truediv. apply Qeq_bool_iff in Hd. rewrite Hd. reflexivity.
  - intros c tps ->. reflexivity.
Qed.

Lemma tps_filter_enabled_witness :
  TokenPerSecondFilter.call
    (TokenPerSecondFilter.mk (Finite 1) (Finite 10) true)
    (cut_of_duration 3)
  = Raise (AssertionError
      "Cannot measure tokens-per-second with untokenized supervisions. Did you forget to provide the tokenizer argument to get_lhotse_dataloader_from_config() method?")
  /\ TokenPerSecondFilter.call
       (TokenPerSecondFilter.mk (Finite 1) (Finite 10) true)
       (Audio (mkCut 0 [mkSupervision (Some [1; 2]%Z)] None None))
     = Raise ZeroDivisionError.
Proof.
  destruct (tps_filter_enabled
              (TokenPerSecondFilter.mk (Finite 1) (Finite 10) true) eq_refl)
    as (_ & Hassert & Hzero & _).
  split.
  - apply (Hassert (mkCut 3 [] None None)); [reflexivity|constructor].
  - apply (Hzero (mkCut 0 [mkSupervision (Some [1; 2]%Z)] None None) 2);
      reflexivity.
Defined.

(** ** More on [FixedBucketBatchSizeConstraint2D.select_bucket] *)





(** X8. On a sorted table of pairs, [select_bucket] returns exactly when
    the example compares below the last boundary, and raises [IndexError]
    otherwise.  The bucket it returns is never before the one the binary
    search found, shares its first-dimension boundary, and compares above
    the example. *)
Theorem select_bucket_2d_returns_iff_below_last :
  forall super batch_sizes tbl x last,
    sorted_table tbl = true ->
    nth_error tbl (List.length tbl - 1) = Some last ->
    (pair_lt x last = true ->
     exists i0 c r br,
       bisect_right (table2d tbl) (pair_val x) = Ok i0
       /\ nth_error tbl i0 = Some c
       /\ FixedBucketBatchSizeConstraint2D.select_bucket super
            (FixedBucketBatchSizeConstraint2D.mk (table2d tbl) batch_sizes)
            (table2d tbl) None (Some (pair_val x)) = Ok r
       /\ (i0 <= r < List.length tbl)%nat
       /\ nth_error tbl r = Some br
       /\ fst br == fst c
       /\ pair_lt x br = true)
    /\ (pair_lt x last = false ->
        FixedBucketBatchSizeConstraint2D.select_bucket super
          (FixedBucketBatchSizeConstraint2D.mk (table2d tbl) batch_sizes)
          (table2d tbl) None (Some (pair_val x)) = Raise IndexError).
Proof.
  intros super batch_sizes tbl x last Hs Hlast.
  assert (Htbl : tbl <> []) by (intros ->; discriminate).
  assert (Hlen : (0 < List.length tbl)%nat)
    by (destruct tbl; [congruence|cbn; lia]).
  destruct (bisect_right_sorted tbl x Hs) as (i0 & Hbis & Hi0 & Hbelow & Habove).
  unfold FixedBucketBatchSizeConstraint2D.select_bucket.
  rewrite (bucketing_2d_enabled_pairs tbl batch_sizes Htbl).
  cbn [bind negb FixedBucketBatchSizeConstraint2D.max_seq_len_buckets].
  rewrite Hbis. cbn [bind]. split.
  - intro Hx.
    assert (Hlt : (i0 < List.length tbl)%nat).
    { destruct (Nat.eq_dec i0 (List.length tbl)) as [->|Hne]; [|lia].
      rewrite (Hbelow (List.length tbl - 1)%nat last ltac:(lia) Hlast) in Hx.
      discriminate. }
    destruct (nth_error_lt tbl i0 Hlt) as (c & Hc).
    destruct (refine_loop_sorted tbl x Hs (List.length tbl - i0)%nat i0 c eq_refl Hc)
      as (r & br & Hr & Hle & Hbr & Hd0 & _ & _).
    exists i0, c, r, br. split; [reflexivity|]. split; [exact Hc|].
    rewrite (table2d_item _ _ _ Hc). cbn [bind py_unpack2 pair_val].
    split; [exact Hr|]. split.
    + split; [exact Hle|]. apply nth_error_Some. congruence.
    + split; [exact Hbr|]. split; [exact Hd0|]. exact (Habove r br Hle Hbr).
  - intro Hx.
    assert (Heq : i0 = List.length tbl).
    { destruct (Nat.eq_dec i0 (List.length tbl)) as [E|Hne]; [exact E|].
      rewrite (Habove (List.length tbl - 1)%nat last ltac:(lia) Hlast) in Hx.
      discriminate. }
    subst i0. rewrite list_item_out; [reflexivity|].
    rewrite table2d_length. lia.
Qed.

Lemma select_bucket_2d_returns_iff_below_last_witness :
  FixedBucketBatchSizeConstraint2D.select_bucket
    FixedBucketBatchSizeConstraint.select_bucket
    (FixedBucketBatchSizeConstraint2D.mk (table2d pairs_2x2) [8; 4; 2; 1]%Z)
    (table2d pairs_2x2) None (Some (pair_val (2, 4))) = Raise IndexError.
Proof.
  apply (proj2 (select_bucket_2d_returns_iff_below_last
                  FixedBucketBatchSizeConstraint.select_bucket [8; 4; 2; 1]%Z
                  pairs_2x2 (2, 4) (2, 4) eq_refl eq_refl)).
  reflexivity.
Defined.

(** X9. On a sorted table of pairs, when no bucket with the candidate's
    first-dimension boundary is wide enough for the example's second
    dimension, [select_bucket] neither raises nor moves on to a group with
    a larger first-dimension boundary: it returns the last bucket of the
    candidate's group, although that bucket's second-dimension boundary is
    below the example's. *)
Theorem select_bucket_2d_group_overflow :
  forall super batch_sizes tbl x i0 c,
    sorted_table tbl = true ->
    bisect_right (table2d tbl) (pair_val x) = Ok i0 ->
    nth_error tbl i0 = Some c ->
    (forall j b, nth_error tbl j = Some b -> fst b == fst c -> snd b < snd x) ->
    exists r br,
      FixedBucketBatchSizeConstraint2D.select_bucket super
        (FixedBucketBatchSizeConstraint2D.mk (table2d tbl) batch_sizes)
        (table2d tbl) None (Some (pair_val x)) = Ok r
      /\ nth_error tbl r = Some br
      /\ fst br == fst c
      /\ snd br < snd x
      /\ forall j b, nth_error tbl j = Some b -> fst b == fst c -> (j <= r)%nat.
Proof.
  intros super batch_sizes tbl x i0 c Hs Hbis Hc Hnarrow.
  assert (Htbl : tbl <> []) by (intros ->; destruct i0; discriminate).
  destruct (refine_loop_sorted tbl x Hs (List.length tbl - i0)%nat i0 c eq_refl Hc)
    as (r & br & Hr & Hle & Hbr & Hd0 & _ & Hstop).
  exists r, br. split.
  { unfold FixedBucketBatchSizeConstraint2D.select_bucket.
    rewrite (bucketing_2d_enabled_pairs tbl batch_sizes Htbl).
    cbn [bind negb FixedBucketBatchSizeConstraint2D.max_seq_len_buckets].
    rewrite Hbis. cbn [bind]. rewrite (table2d_item _ _ _ Hc).
    cbn [bind py_unpack2 pair_val]. exact Hr. }
  split; [exact Hbr|]. split; [exact Hd0|].
  pose proof (Hnarrow r br Hbr Hd0) as Hbrx. split; [exact Hbrx|].
  intros j b Hb Hbc.
  destruct (Nat.le_gt_cases j r) as [H|H]; [exact H|].
  destruct Hstop as [Hstop|Hstop]; [lra|].
  exfalso. exact (Hstop j b H Hb Hbc).
Qed.

Lemma select_bucket_2d_group_overflow_witness :
  exists r br,
    FixedBucketBatchSizeConstraint2D.select_bucket
      FixedBucketBatchSizeConstraint.select_bucket
      (FixedBucketBatchSizeConstraint2D.mk (table2d pairs_2x2) [8; 4; 2; 1]%Z)
      (table2d pairs_2x2) None (Some (pair_val (1 # 2, 9))) = Ok r
    /\ nth_error pairs_2x2 r = Some br
    /\ fst br == fst (1, 1)
    /\ snd br < snd (1 # 2, 9)
    /\ forall j b, nth_error pairs_2x2 j = Some b -> fst b == fst (1, 1) ->
                   (j <= r)%nat.
Proof.
  apply (select_bucket_2d_group_overflow
           FixedBucketBatchSizeConstraint.select_bucket [8; 4; 2; 1]%Z
           pairs_2x2 (1 # 2, 9) 0%nat (1, 1) eq_refl eq_refl eq_refl).
  intros [|[|[|[|j]]]] b Hb Hd0; cbn in Hb.
  - injection Hb as <-. reflexivity.
  - injection Hb as <-. reflexivity.
  - injection Hb as <-. discriminate Hd0.
  - injection Hb as <-. discriminate Hd0.
  - destruct j; discriminate Hb.
Defined.

(** ** Measuring with the fixed-bucket constraints *)

(** X10. A fixed-bucket constraint built with an empty boundary table is
    unusable: [bucketing_2d_enabled] reads the first boundary, so it, both
    [measure_length] methods and [select_bucket] raise [IndexError] on
    every example and every length. *)
Theorem empty_bucket_table_raises :
  forall super batch_sizes ted,
    let self := FixedBucketBatchSizeConstraint2D.mk [] batch_sizes in
    FixedBucketBatchSizeConstraint2D.bucketing_2d_enabled self = Raise IndexError
    /\ (forall example,
        FixedBucketBatchSizeConstraint2D.measure_length self example
        = Raise IndexError)
    /\ (forall buckets example example_len,
        FixedBucketBatchSizeConstraint2D.select_bucket super self buckets
          example example_len = Raise IndexError)
    /\ (forall example,
        MultimodalFixedBucketBatchSizeConstraint2D.measure_length
          (MultimodalFixedBucketBatchSizeConstraint2D.mk self ted) example
        = Raise IndexError).
Proof.
  intros super batch_sizes ted self. repeat split; reflexivity.
Qed.

(** X11. With 2D bucketing enabled, [measure_length] returns the pair of
    the duration and the token count of a cut whose tokens can be
    measured, raises the error of [_measure_tokens] on a cut whose tokens
    cannot, and raises [AttributeError] on a text example, which has no
    duration.  [select_bucket] uses [example_len] when it is given,
    ignoring the example, and otherwise measures the example first,
    raising what the measurement raises. *)
Theorem measure_length_2d_and_select_bucket_arguments :
  forall super self,
    FixedBucketBatchSizeConstraint2D.bucketing_2d_enabled self = Ok true ->
    (forall c n, _measure_tokens (Audio c) = Ok n ->
        FixedBucketBatchSizeConstraint2D.measure_length self (Audio c)
        = Ok (PySeq [duration c; n]))
    /\ (forall c e, _measure_tokens (Audio c) = Raise e ->
        FixedBucketBatchSizeConstraint2D.measure_length self (Audio c) = Raise e)
    /\ (forall example, is_text example = true ->
        FixedBucketBatchSizeConstraint2D.measure_length self example
        = Raise (AttributeError "duration"))
    /\ (forall buckets example example' len,
        FixedBucketBatchSizeConstraint2D.select_bucket super self buckets
          example (Some len)
        = FixedBucketBatchSizeConstraint2D.select_bucket super self buckets
            example' (Some len))
    /\ (forall buckets example len,
        FixedBucketBatchSizeConstraint2D.measure_length self example = Ok len ->
        FixedBucketBatchSizeConstraint2D.select_bucket super self buckets
          (Some example) None
        = FixedBucketBatchSizeConstraint2D.select_bucket super self buckets
            None (Some len))
    /\ (forall buckets example e,
        FixedBucketBatchSizeConstraint2D.measure_length self example = Raise e ->
        FixedBucketBatchSizeConstraint2D.select_bucket super self buckets
          (Some example) None = Raise e).
Proof.
  intros super self H2d.
  unfold FixedBucketBatchSizeConstraint2D.measure_length,
    FixedBucketBatchSizeConstraint2D.select_bucket.
  rewrite H2d. cbn [bind negb].
  split; [|split; [|split; [|split; [|split]]]].
  - intros c n ->. reflexivity.
  - intros c e ->. reflexivity.
  - intros [c|n|n|o] H; try discriminate; reflexivity.
  - reflexivity.
  - intros buckets example len H.
    unfold FixedBucketBatchSizeConstraint2D.measure_length.
    rewrite H2d. cbn [bind]. rewrite H. reflexivity.
  - intros buckets example e H.
    unfold FixedBucketBatchSizeConstraint2D.measure_length.
    rewrite H2d. cbn [bind]. rewrite H. reflexivity.
Qed.

Lemma measure_length_2d_and_select_bucket_arguments_witness :
  FixedBucketBatchSizeConstraint2D.measure_length
    (FixedBucketBatchSizeConstraint2D.mk buckets_2x2 [8; 4; 2; 1]%Z)
    (Audio (mkCut (3 # 2) [mkSupervision (Some [5; 6; 7]%Z)] None None))
  = Ok (PySeq [3 # 2; 3]).
Proof.
  apply (proj1 (measure_length_2d_and_select_bucket_arguments
                  FixedBucketBatchSizeConstraint.select_bucket
                  (FixedBucketBatchSizeConstraint2D.mk buckets_2x2 [8; 4; 2; 1]%Z)
                  eq_refl)
           (mkCut (3 # 2) [mkSupervision (Some [5; 6; 7]%Z)] None None) 3).
  reflexivity.
Defined.

(** A successful [add] of a cut returns the cut with the measured length
    cached on it. *)
Lemma add_audio_inv (self self' : MultimodalSamplingConstraint.t) (c : Cut)
    (example' : Example) :
  MultimodalSamplingConstraint.add self (Audio c) = Ok (self', example') ->
  exists n,
    MultimodalSamplingConstraint.measure_length self (Audio c) = Ok n
    /\ example' = Audio (set_num_tokens c n).
Proof.
  unfold MultimodalSamplingConstraint.add. intro H.
  destruct (MultimodalSamplingConstraint.measure_length self (Audio c))
    as [n|e]; [|discriminate].
  cbn [bind] in H.
  destruct (TokenConstraint.add (MultimodalSamplingConstraint._internal self)
              (Audio (set_num_tokens c n))) as [i|e]; [|discriminate].
  cbn [bind] in H. injection H as _ <-. exists n. auto.
Qed.

(** X12. What [MultimodalSamplingConstraint.add] caches on a cut is what
    [MultimodalFixedBucketBatchSizeConstraint2D.measure_length] reads
    afterwards: on the cut returned by a successful [add], a
    one-dimensional multimodal fixed-bucket constraint measures exactly the
    length [measure_length] of the sampling constraint gave, whatever its
    own [token_equivalent_duration]. *)
Theorem add_then_fixed_bucket_measure :
  forall self c self' example' fb,
    MultimodalSamplingConstraint.add self (Audio c) = Ok (self', example') ->
    FixedBucketBatchSizeConstraint2D.bucketing_2d_enabled
      (MultimodalFixedBucketBatchSizeConstraint2D.base fb) = Ok false ->
    exists n,
      MultimodalSamplingConstraint.measure_length self (Audio c) = Ok n
      /\ MultimodalFixedBucketBatchSizeConstraint2D.measure_length fb example'
         = Ok n.
Proof.
  intros self c self' example' fb Hadd H2d.
  destruct (add_audio_inv self self' c example' Hadd) as (n & Hn & ->).
  exists n. split; [exact Hn|].
  unfold MultimodalFixedBucketBatchSizeConstraint2D.measure_length.
  rewrite H2d. reflexivity.
Qed.

Lemma add_then_fixed_bucket_measure_witness :
  exists n,
    MultimodalSamplingConstraint.measure_length constraint_100_tokens
      (cut_of_duration 3) = Ok n
    /\ MultimodalFixedBucketBatchSizeConstraint2D.measure_length multimodal_1d
         (Audio (set_num_tokens (mkCut 3 [] None None) (3 / (1 # 2)))) = Ok n.
Proof.
  apply (add_then_fixed_bucket_measure constraint_100_tokens
           (mkCut 3 [] None None)
           (MultimodalSamplingConstraint.set_internal constraint_100_tokens
              (TokenConstraint.mk (Some 100) (Some 10%Z) None (0 + 3 / (1 # 2)) 1))
           (Audio (set_num_tokens (mkCut 3 [] None None) (3 / (1 # 2))))
           multimodal_1d).
  - reflexivity.
  - reflexivity.
Defined.

(** X13. On a one-dimensional table, the multimodal fixed-bucket constraint
    measures a cut without a cached [num_tokens] by
    [duration / token_equivalent_duration], failing on its assertion when
    no [token_equivalent_duration] is configured.  With the same
    [token_equivalent_duration] it agrees with
    [MultimodalSamplingConstraint.measure_length] on every text example
    and every cut without a cached [num_tokens]; the two differ on an
    object of another type that carries a [num_tokens]: the fixed-bucket
    constraint returns it, the sampling constraint rejects the type. *)
Theorem multimodal_measure_lengths_agree :
  forall fb self,
    FixedBucketBatchSizeConstraint2D.bucketing_2d_enabled
      (MultimodalFixedBucketBatchSizeConstraint2D.base fb) = Ok false ->
    (forall c,
        num_tokens c = None ->
        MultimodalFixedBucketBatchSizeConstraint2D.token_equivalent_duration fb
        = None ->
        MultimodalFixedBucketBatchSizeConstraint2D.measure_length fb (Audio c)
        = Raise (AssertionError
            "Cannot use MultimodalFixedBucketBatchSizeConstraint with speech data when token_equivalent_duration was not specified."))
    /\ (forall example,
        MultimodalFixedBucketBatchSizeConstraint2D.token_equivalent_duration fb
        = Some (MultimodalSamplingConstraint.token_equivalent_duration self) ->
        is_text example = true
        \/ (exists c, example = Audio c /\ num_tokens c = None) ->
        MultimodalFixedBucketBatchSizeConstraint2D.measure_length fb example
        = MultimodalSamplingConstraint.measure_length self example)
    /\ (forall o n,
        obj_num_tokens o = Some n ->
        MultimodalFixedBucketBatchSizeConstraint2D.measure_length fb (Other o)
        = Ok n
        /\ exists msg,
             MultimodalSamplingConstraint.measure_length self (Other o)
             = Raise (RuntimeError msg)).
Proof.
  intros fb self H2d.
  unfold MultimodalFixedBucketBatchSizeConstraint2D.measure_length.
  rewrite H2d. cbn [bind negb py_assert]. split; [|split].
  - intros c Hc Hted. cbn [getattr_num_tokens isinstance_Cut].
    rewrite Hc, Hted. reflexivity.
  - intros example Hted [Htext|(c & -> & Hc)].
    + destruct example as [c|n|n|o]; try discriminate; reflexivity.
    + cbn [getattr_num_tokens isinstance_Cut]. rewrite Hc, Hted. reflexivity.
  - intros o n Ho. cbn [getattr_num_tokens]. rewrite Ho.
    split; [reflexivity|]. eexists. reflexivity.
Qed.

Lemma multimodal_measure_lengths_agree_witness :
  MultimodalFixedBucketBatchSizeConstraint2D.measure_length
    (MultimodalFixedBucketBatchSizeConstraint2D.mk
       (FixedBucketBatchSizeConstraint2D.mk [PyNum 10; PyNum 20] [4; 2]%Z)
       (Some (1 # 2)))
    (cut_of_duration 3)
  = MultimodalSamplingConstraint.measure_length constraint_100_tokens
      (cut_of_duration 3).
Proof.
  apply (proj1 (proj2 (multimodal_measure_lengths_agree
           (MultimodalFixedBucketBatchSizeConstraint2D.mk
              (FixedBucketBatchSizeConstraint2D.mk [PyNum 10; PyNum 20] [4; 2]%Z)
              (Some (1 # 2)))
           constraint_100_tokens eq_refl)) (cut_of_duration 3)).
  - reflexivity.
  - right. exists (mkCut 3 [] None None). split; reflexivity.
Defined.

(** ** [determine_bucket_duration_bins] *)

(** Every list becomes a tuple. *)
Lemma map_result_lists (seqs : list (list Q)) :
  map_result py_tuple (map BinList seqs) = Ok (map BinTuple seqs).
Proof.
  induction seqs as [|l seqs IH]; [reflexivity|].
  cbn [map map_result py_tuple bind]. rewrite IH. reflexivity.
Qed.

Lemma map_result_pairs (tbl : list (Q * Q)) :
  map_result py_tuple (map pair_list tbl) = Ok (map pair_tuple tbl).
Proof.
  induction tbl as [|b tbl IH]; [reflexivity|].
  cbn [map map_result py_tuple pair_list bind]. rewrite IH. reflexivity.
Qed.

(** A number among the entries stops the conversion. *)
Lemma map_result_number (ans : list BinValue) :
  Exists (fun item => is_bin_sequence item = false) ans ->
  map_result py_tuple ans = Raise TypeError.
Proof.
  induction 1 as [item ans Hitem|item ans _ IH].
  - destruct item; [reflexivity|discriminate|discriminate].
  - destruct item; [reflexivity| |];
      cbn [map_result py_tuple bind]; rewrite IH; reflexivity.
Qed.

(** The samples of [linspace] without the first and the last one. *)
Lemma linspace_interior (start stop : Q) (n : nat) :
  (1 <= n)%nat ->
  exists samples,
    linspace start stop (Z.of_nat n + 1) = Ok samples
    /\ slice_1_m1 samples
       = map (fun i => inject_Z (Z.of_nat i)
                       * ((stop - start) / inject_Z (Z.of_nat n)) + start)
           (seq 1 (n - 1)).
Proof.
  intro Hn. unfold linspace.
  destruct (Z.ltb_spec (Z.of_nat n + 1) 0) as [H|_]; [lia|].
  destruct (Z.ltb_spec 1 (Z.of_nat n + 1)) as [_|H]; [|lia].
  replace (Z.of_nat n + 1 - 1)%Z with (Z.of_nat n) by lia.
  replace (Z.to_nat (Z.of_nat n + 1)) with (S n) by lia.
  eexists. split; [reflexivity|].
  set (f := fun i => inject_Z (Z.of_nat i)
                     * ((stop - start) / inject_Z (Z.of_nat n)) + start).
  rewrite seq_S, map_app. cbn [map]. rewrite removelast_last.
  destruct n as [|n]; [lia|].
  cbn [seq map]. unfold slice_1_m1. cbn [tl app].
  rewrite removelast_last. replace (S n - 1)%nat with n by lia. reflexivity.
Qed.

(** A configured table of pairs is returned with every pair as a tuple. *)
Lemma determine_bins_pairs (config : Config) (tbl : list (Q * Q)) :
  tbl <> [] ->
  bucket_duration_bins config = Some (map pair_list tbl) ->
  determine_bucket_duration_bins config = Ok (Some (map pair_tuple tbl)).
Proof.
  intros Htbl Hbins. unfold determine_bucket_duration_bins. rewrite Hbins.
  destruct tbl as [|b tbl]; [congruence|].
  change (list_item (map pair_list (b :: tbl)) 0) with (Ok (pair_list b)).
  cbn [bind pair_list is_bin_sequence].
  rewrite (map_result_pairs (b :: tbl)). reflexivity.
Qed.

(** X14. When [bucket_duration_bins] is configured,
    [determine_bucket_duration_bins] returns it unchanged when its first
    entry is a number, whatever follows.  When every entry is a list, as
    the configuration holds the bins of 2D bucketing, it returns the same
    entries in the same order, each one turned into a tuple.  It raises
    [IndexError] on an empty list, and [TypeError] on a list whose first
    entry is a list or a tuple and that holds a number anywhere further
    on.  When no bins are configured it returns [None] for multimodal
    sampling, and [None] when [max_duration] is missing or infinite. *)
Theorem determine_bins_explicit_or_none :
  forall config,
    (forall q rest,
        bucket_duration_bins config = Some (BinNum q :: rest) ->
        determine_bucket_duration_bins config = Ok (Some (BinNum q :: rest)))
    /\ (forall seqs,
        seqs <> [] ->
        bucket_duration_bins config = Some (map BinList seqs) ->
        determine_bucket_duration_bins config = Ok (Some (map BinTuple seqs)))
    /\ (bucket_duration_bins config = Some [] ->
        determine_bucket_duration_bins config = Raise IndexError)
    /\ (forall first rest,
        is_bin_sequence first = true ->
        Exists (fun item => is_bin_sequence item = false) rest ->
        bucket_duration_bins config = Some (first :: rest) ->
        determine_bucket_duration_bins config = Raise TypeError)
    /\ (bucket_duration_bins config = None ->
        use_multimodal_sampling config = true
        \/ max_duration config = None \/ max_duration config = Some PosInf ->
        determine_bucket_duration_bins config = Ok None).
Proof.
  intro config. unfold determine_bucket_duration_bins.
  split; [|split; [|split; [|split]]].
  - intros q rest ->. reflexivity.
  - intros seqs Hseqs ->. destruct seqs as [|l seqs]; [congruence|].
    change (list_item (map BinList (l :: seqs)) 0) with (Ok (BinList l)).
    cbn [bind is_bin_sequence].
    rewrite (map_result_lists (l :: seqs)). reflexivity.
  - intros ->. reflexivity.
  - intros first rest Hfirst Hrest ->.
    change (list_item (first :: rest) 0) with (Ok first).
    cbn [bind]. rewrite Hfirst.
    rewrite (map_result_number (first :: rest)); [reflexivity|].
    apply Exists_cons_tl. exact Hrest.
  - intros -> [H|[H|H]].
    + rewrite H. reflexivity.
    + rewrite H. destruct (use_multimodal_sampling config); reflexivity.
    + rewrite H. destruct (use_multimodal_sampling config); reflexivity.
Qed.

Lemma determine_bins_explicit_or_none_witness :
  determine_bucket_duration_bins
    (mkConfig None None None None 30
       (Some [BinList [1; 1]; BinList [1; 2]; BinList [2; 2]; BinList [2; 4]])
       false None None None (Some (-1)) (Some PosInf))
  = Ok (Some [BinTuple [1; 1]; BinTuple [1; 2]; BinTuple [2; 2];
              BinTuple [2; 4]])
  /\ determine_bucket_duration_bins
       (mkConfig None None None None 30
          (Some [BinList [1; 1]; BinList [1; 2]; BinNum 3])
          false None None None (Some (-1)) (Some PosInf))
     = Raise TypeError
  /\ determine_bucket_duration_bins
       (mkConfig None None None None 30 None false None None None
          (Some (-1)) (Some PosInf))
     = Ok None.
Proof.
  split; [|split].
  - apply (proj1 (proj2 (determine_bins_explicit_or_none
             (mkConfig None None None None 30
                (Some [BinList [1; 1]; BinList [1; 2]; BinList [2; 2];
                       BinList [2; 4]])
                false None None None (Some (-1)) (Some PosInf))))
             [[1; 1]; [1; 2]; [2; 2]; [2; 4]]).
    + discriminate.
    + reflexivity.
  - apply (proj1 (proj2 (proj2 (proj2 (determine_bins_explicit_or_none
             (mkConfig None None None None 30
                (Some [BinList [1; 1]; BinList [1; 2]; BinNum 3])
                false None None None (Some (-1)) (Some PosInf))))))
             (BinList [1; 1]) [BinList [1; 2]; BinNum 3]).
    + reflexivity.
    + apply Exists_cons_tl. apply Exists_cons_hd. reflexivity.
    + reflexivity.
  - apply (proj2 (proj2 (proj2 (proj2 (determine_bins_explicit_or_none
             (mkConfig None None None None 30 None false None None None
                (Some (-1)) (Some PosInf))))))).
    + reflexivity.
    + right. right. reflexivity.
Defined.

Lemma step_times_count (lo hi : Q) (n : nat) :
  (1 <= n)%nat ->
  inject_Z (Z.of_nat n) * ((hi - lo) / inject_Z (Z.of_nat n)) == hi - lo.
Proof.
  intro Hn. apply Qmult_div_r.
  intro H. assert (Hpos : 0 < inject_Z (Z.of_nat n)).
  { change 0 with (inject_Z 0). rewrite <- Zlt_Qlt. lia. }
  rewrite H in Hpos. apply (Qlt_irrefl 0 Hpos).
Qed.

Lemma step_positive (lo hi : Q) (n : nat) :
  (1 <= n)%nat -> lo < hi -> 0 < (hi - lo) / inject_Z (Z.of_nat n).
Proof.
  intros Hn Hlt. apply Qlt_shift_div_l.
  - change 0 with (inject_Z 0). rewrite <- Zlt_Qlt. lia.
  - lra.
Qed.

(** X15. Without configured bins, without multimodal sampling and with a
    finite [max_duration], [determine_bucket_duration_bins] cuts the range
    from [begin] ([min_duration] when positive, else 0) to [max_duration]
    into [num_buckets] equal parts and returns the [num_buckets - 1] inner
    boundaries: boundary [j] is [begin + (j+1) * (max_duration - begin) /
    num_buckets].  When [begin < max_duration] the boundaries lie strictly
    between the two and increase strictly. *)
Theorem determine_bins_uniform :
  forall config end_ n,
    bucket_duration_bins config = None ->
    use_multimodal_sampling config = false ->
    max_duration config = Some (Finite end_) ->
    num_buckets config = Z.of_nat n ->
    (1 <= n)%nat ->
    exists bins,
      determine_bucket_duration_bins config = Ok (Some (map BinNum bins))
      /\ List.length bins = (n - 1)%nat
      /\ (forall j, (j < n - 1)%nat ->
            nth_error bins j
            = Some (inject_Z (Z.of_nat (1 + j))
                    * ((end_ - bins_begin config) / inject_Z (Z.of_nat n))
                    + bins_begin config))
      /\ (bins_begin config < end_ ->
          forall j b, nth_error bins j = Some b -> bins_begin config < b < end_)
      /\ (bins_begin config < end_ ->
          forall i j bi bj,
            (i < j)%nat -> nth_error bins i = Some bi ->
            nth_error bins j = Some bj -> bi < bj).
Proof.
  intros config end_ n Hbins Hmm Hmax Hnum Hn.
  unfold determine_bucket_duration_bins. rewrite Hbins, Hmm, Hmax, Hnum.
  fold (bins_begin config).
  destruct (linspace_interior (bins_begin config) end_ n Hn)
    as (samples & -> & Hslice).
  cbn [bind]. rewrite Hslice.
  set (step := (end_ - bins_begin config) / inject_Z (Z.of_nat n)).
  set (f := fun i => inject_Z (Z.of_nat i) * step + bins_begin config).
  assert (Hnth : forall j, (j < n - 1)%nat ->
             nth_error (map f (seq 1 (n - 1))) j = Some (f (1 + j)%nat)).
  { intros j Hj. rewrite nth_error_map, nth_error_seq.
    rewrite (proj2 (Nat.ltb_lt j (n - 1)) Hj). reflexivity. }
  assert (Hinv : forall j b, nth_error (map f (seq 1 (n - 1))) j = Some b ->
             (j < n - 1)%nat /\ b = f (1 + j)%nat).
  { intros j b Hb.
    assert (Hj : (j < n - 1)%nat).
    { assert (Hsome : nth_error (map f (seq 1 (n - 1))) j <> None) by congruence.
      apply nth_error_Some in Hsome. rewrite length_map, length_seq in Hsome.
      exact Hsome. }
    split; [exact Hj|]. rewrite (Hnth j Hj) in Hb. congruence. }
  exists (map f (seq 1 (n - 1))). split; [reflexivity|]. split.
  { rewrite length_map, length_seq. reflexivity. }
  split; [exact Hnth|]. split.
  - intros Hlt j b Hb. destruct (Hinv j b Hb) as (Hj & ->). unfold f.
    pose proof (step_positive (bins_begin config) end_ n Hn Hlt) as Hstep.
    pose proof (step_times_count (bins_begin config) end_ n Hn) as Htot.
    fold step in Hstep, Htot.
    assert (H1 : 0 < inject_Z (Z.of_nat (1 + j))).
    { change 0 with (inject_Z 0). rewrite <- Zlt_Qlt. lia. }
    assert (H2 : inject_Z (Z.of_nat (1 + j)) < inject_Z (Z.of_nat n)).
    { rewrite <- Zlt_Qlt. lia. }
    pose proof (Qmult_lt_compat_r _ _ step Hstep H1) as H3.
    pose proof (Qmult_lt_compat_r _ _ step Hstep H2) as H4.
    lra.
  - intros Hlt i j bi bj Hij Hbi Hbj.
    destruct (Hinv i bi Hbi) as (Hi & ->). destruct (Hinv j bj Hbj) as (Hj & ->).
    unfold f.
    pose proof (step_positive (bins_begin config) end_ n Hn Hlt) as Hstep.
    fold step in Hstep.
    assert (H2 : inject_Z (Z.of_nat (1 + i)) < inject_Z (Z.of_nat (1 + j))).
    { rewrite <- Zlt_Qlt. lia. }
    pose proof (Qmult_lt_compat_r _ _ step Hstep H2) as H4.
    lra.
Qed.

Lemma determine_bins_uniform_witness :
  exists bins,
    determine_bucket_duration_bins
      (mkConfig None None None None 4 None false None None None
         (Some (-1)) (Some (Finite 20)))
    = Ok (Some (map BinNum bins))
    /\ List.length bins = 3%nat.
Proof.
  destruct (determine_bins_uniform
              (mkConfig None None None None 4 None false None None None
                 (Some (-1)) (Some (Finite 20)))
              20 4%nat eq_refl eq_refl eq_refl eq_refl ltac:(lia))
    as (bins & Hb & Hlen & _).
  exists bins. split; [exact Hb|exact Hlen].
Defined.

(** ** The constraint of a configuration *)

(** X16. The choice of the constraint computes the bucket bins first, so
    whatever [determine_bucket_duration_bins] raises is raised whether or
    not [bucket_batch_size] is set.  Once the bins are computed, the choice
    fails exactly when [bucket_batch_size] is set and there are no bins,
    on its assertion; without [bucket_batch_size] it builds a
    [MultimodalSamplingConstraint] for multimodal sampling and a
    [TimeConstraint] otherwise, and with [bucket_batch_size] and bins a
    fixed-bucket constraint over these bins. *)
Theorem constraint_of_config_cases :
  forall config,
    (forall e, determine_bucket_duration_bins config = Raise e ->
               constraint_of_config config = Raise e)
    /\ (forall bins, determine_bucket_duration_bins config = Ok bins ->
        (bucket_batch_size config <> None /\ bins = None <->
         constraint_of_config config
         = Raise (AssertionError
             "Cannot use bucket_batch_size option if bucket_duration_bins are not provided."))
        /\ (bucket_batch_size config = None ->
            constraint_of_config config
            = Ok (if use_multimodal_sampling config then
                    NewMultimodalSamplingConstraint
                      (token_equivalent_duration config) (batch_size config)
                      (batch_tokens config) (quadratic_factor config)
                  else
                    NewTimeConstraint (batch_size config)
                      (batch_duration config) (quadratic_duration config)))
        /\ (forall sizes b,
            bucket_batch_size config = Some sizes -> bins = Some b ->
            constraint_of_config config
            = Ok (if use_multimodal_sampling config then
                    NewMultimodalFixedBucketBatchSizeConstraint2D b sizes
                      (token_equivalent_duration config)
                  else NewFixedBucketBatchSizeConstraint2D b sizes))).
Proof.
  intro config. unfold constraint_of_config. split.
  - intros e ->. reflexivity.
  - intros bins ->. cbn [bind]. split; [|split].
    + destruct (use_multimodal_sampling config),
        (bucket_batch_size config) as [sizes|], bins as [b|];
        split; try discriminate; try reflexivity;
        try (intros [H1 H2]; congruence); intros _; split; congruence.
    + intros ->. destruct (use_multimodal_sampling config); reflexivity.
    + intros sizes b -> ->.
      destruct (use_multimodal_sampling config); reflexivity.
Qed.

Lemma constraint_of_config_cases_witness :
  constraint_of_config
    (mkConfig None None None (Some [8; 4; 2]%Z) 30 None false None None None
       (Some (-1)) (Some PosInf))
  = Raise (AssertionError
      "Cannot use bucket_batch_size option if bucket_duration_bins are not provided.").
Proof.
  apply (proj1 (proj2 (constraint_of_config_cases
           (mkConfig None None None (Some [8; 4; 2]%Z) 30 None false None None
              None (Some (-1)) (Some PosInf))) None eq_refl)).
  split; [discriminate|reflexivity].
Defined.

(** X17. Two configurations that build a constraint which cannot measure
    anything.  Multimodal sampling with [bucket_batch_size] and a 2D table
    of bins builds a multimodal fixed-bucket constraint over the pairs of
    the table as tuples, whose [measure_length] fails on every example, 2D
    bucketing being unsupported there.  And [bucket_batch_size] with bins computed for a
    single bucket ([num_buckets] = 1, finite [max_duration]) builds a
    fixed-bucket constraint over an empty table, whose [measure_length]
    raises [IndexError] on every example. *)
Theorem unusable_constraints_of_config :
  forall config sizes,
    bucket_batch_size config = Some sizes ->
    (forall tbl,
        tbl <> [] ->
        use_multimodal_sampling config = true ->
        bucket_duration_bins config = Some (map pair_list tbl) ->
        constraint_of_config config
        = Ok (NewMultimodalFixedBucketBatchSizeConstraint2D
                (map pair_tuple tbl) sizes (token_equivalent_duration config))
        /\ forall example,
             MultimodalFixedBucketBatchSizeConstraint2D.measure_length
               (MultimodalFixedBucketBatchSizeConstraint2D.mk
                  (FixedBucketBatchSizeConstraint2D.mk (table2d tbl) sizes)
                  (token_equivalent_duration config)) example
             = Raise (AssertionError
                 "2D bucketing for multimodal sampling is not yet supported."))
    /\ (forall end_,
        use_multimodal_sampling config = false ->
        bucket_duration_bins config = None ->
        max_duration config = Some (Finite end_) ->
        num_buckets config = 1%Z ->
        constraint_of_config config
        = Ok (NewFixedBucketBatchSizeConstraint2D [] sizes)
        /\ forall example,
             FixedBucketBatchSizeConstraint2D.measure_length
               (FixedBucketBatchSizeConstraint2D.mk [] sizes) example
             = Raise IndexError).
Proof.
  intros config sizes Hsizes. split.
  - intros tbl Htbl Hmm Hbins. split.
    + unfold constraint_of_config.
      rewrite (determine_bins_pairs config tbl Htbl Hbins).
      cbn [bind]. rewrite Hmm, Hsizes. reflexivity.
    + intro example.
      unfold MultimodalFixedBucketBatchSizeConstraint2D.measure_length.
      cbn [MultimodalFixedBucketBatchSizeConstraint2D.base].
      rewrite (bucketing_2d_enabled_pairs tbl sizes Htbl). reflexivity.
  - intros end_ Hmm Hbins Hmax Hnum. split; [|reflexivity].
    unfold constraint_of_config, determine_bucket_duration_bins.
    rewrite Hbins, Hmm, Hmax, Hnum, Hsizes. reflexivity.
Qed.

Lemma unusable_constraints_of_config_witness :
  constraint_of_config
    (mkConfig None None None (Some [8; 4; 2; 1]%Z) 30
       (Some (map pair_list pairs_2x2))
       true (Some (1 # 2)) None None (Some (-1)) (Some PosInf))
  = Ok (NewMultimodalFixedBucketBatchSizeConstraint2D
          (map pair_tuple pairs_2x2) [8; 4; 2; 1]%Z (Some (1 # 2)))
  /\ constraint_of_config
       (mkConfig None None None (Some [8]%Z) 1 None false None None None
          (Some (-1)) (Some (Finite 20)))
     = Ok (NewFixedBucketBatchSizeConstraint2D [] [8]%Z).
Proof.
  split.
  - apply (proj1 (unusable_constraints_of_config
             (mkConfig None None None (Some [8; 4; 2; 1]%Z) 30
                (Some (map pair_list pairs_2x2)) true (Some (1 # 2)) None None
                (Some (-1)) (Some PosInf))
             [8; 4; 2; 1]%Z eq_refl) pairs_2x2);
      [discriminate|reflexivity|reflexivity].
  - apply (proj2 (unusable_constraints_of_config
             (mkConfig None None None (Some [8]%Z) 1 None false None None None
                (Some (-1)) (Some (Finite 20)))
             [8]%Z eq_refl) 20); reflexivity.
Defined.

(** ** [_select_channel] *)

(** X18. [_select_channel] resolves a key through [cut.custom] and fails
    with [ValueError] when the key is absent.  With the index resolved, it
    fails with [ValueError] exactly when the index is at least the number
    of channels; a negative index is never rejected.  Otherwise a
    single-channel cut is returned as it is, and a multi-channel cut is
    narrowed with [with_channels] to that index. *)
Theorem select_channel_cases :
  forall (AnyCut : Type) (num_channels : AnyCut -> Z)
         (custom : AnyCut -> option (list (string * Z)))
         (with_channels : AnyCut -> Z -> AnyCut) cut,
    (forall key d, custom cut = Some d -> dict_get d key = None ->
        _select_channel AnyCut num_channels custom with_channels cut
          (ChannelKey key) = Raise ValueError)
    /\ (forall key d i, custom cut = Some d -> dict_get d key = Some i ->
        _select_channel AnyCut num_channels custom with_channels cut
          (ChannelKey key)
        = _select_channel AnyCut num_channels custom with_channels cut
            (ChannelIndex i))
    /\ (forall i,
        ((num_channels cut <= i)%Z <->
         _select_channel AnyCut num_channels custom with_channels cut
           (ChannelIndex i) = Raise ValueError)
        /\ ((i < num_channels cut)%Z -> num_channels cut = 1%Z ->
            _select_channel AnyCut num_channels custom with_channels cut
              (ChannelIndex i) = Ok cut)
        /\ ((i < num_channels cut)%Z -> num_channels cut <> 1%Z ->
            _select_channel AnyCut num_channels custom with_channels cut
              (ChannelIndex i) = Ok (with_channels cut i))).
Proof.
  intros AnyCut num_channels custom with_channels cut.
  unfold _select_channel. split; [|split].
  - intros key d -> ->. reflexivity.
  - intros key d i -> ->. reflexivity.
  - intro i. cbn [bind].
    destruct (Z.leb_spec (num_channels cut) i) as [Hle|Hlt].
    + split; [split; auto|]. split; intros; lia.
    + destruct (Z.eqb_spec (num_channels cut) 1) as [H1|H1].
      * split; [split; [lia|discriminate]|].
        split; [reflexivity|]. intros; contradiction.
      * split; [split; [lia|discriminate]|].
        split; [intros; contradiction|reflexivity].
Qed.

Lemma select_channel_cases_witness :
  _select_channel (list Z) (fun c => Z.of_nat (List.length c))
    (fun _ => Some [("mic"%string, 1%Z)]) (fun c i => [i]) [10; 20; 30]%Z
    (ChannelIndex (-1))
  = Ok [(-1)%Z].
Proof.
  apply (proj2 (proj2 (proj2 (proj2 (select_channel_cases (list Z)
           (fun c => Z.of_nat (List.length c))
           (fun _ => Some [("mic"%string, 1%Z)]) (fun c i => [i])
           [10; 20; 30]%Z)) (-1)%Z))); [reflexivity|discriminate].
Defined.

(** ** Strings *)

Lemma has_slash_app (a b : string) :
  has_slash (a ++ b) = has_slash a || has_slash b.
Proof.
  induction a as [|c a IH]; [reflexivity|].
  cbn [String.append has_slash]. rewrite IH. apply orb_assoc.
Qed.

Lemma str_replace_slash_clean (s : string) :
  has_slash (str_replace_slash s) = false.
Proof.
  induction s as [|c s IH]; [reflexivity|].
  cbn [str_replace_slash]. destruct (is_slash c) eqn:E.
  - cbn [has_slash]. rewrite IH. reflexivity.
  - cbn [has_slash]. rewrite E, IH. reflexivity.
Qed.

Lemma str_replace_slash_id (s : string) :
  has_slash s = false -> str_replace_slash s = s.
Proof.
  induction s as [|c s IH]; [reflexivity|].
  cbn [has_slash str_replace_slash]. intro H.
  apply orb_false_iff in H as [Hc Hs]. rewrite Hc, (IH Hs). reflexivity.
Qed.

Lemma str_split_slash_clean (s : string) :
  Forall (fun piece => has_slash piece = false) (str_split_slash s).
Proof.
  induction s as [|c s IH]; [repeat constructor|].
  cbn [str_split_slash]. destruct (is_slash c) eqn:E.
  - constructor; [reflexivity|exact IH].
  - destruct (str_split_slash s) as [|piece pieces].
    + repeat constructor. cbn [has_slash]. rewrite E. reflexivity.
    + inversion IH as [|? ? Hp Hps]; subst. constructor; [|exact Hps].
      cbn [has_slash]. rewrite E, Hp. reflexivity.
Qed.

Lemma str_split_slash_id (s : string) :
  has_slash s = false -> str_split_slash s = [s].
Proof.
  induction s as [|c s IH]; [reflexivity|].
  cbn [has_slash str_split_slash]. intro H.
  apply orb_false_iff in H as [Hc Hs]. rewrite Hc, (IH Hs). reflexivity.
Qed.

Lemma str_split_slash_app (a b : string) :
  str_split_slash (a ++ String "/" b) = str_split_slash a ++ str_split_slash b.
Proof.
  induction a as [|c a IH]; [reflexivity|].
  cbn [String.append str_split_slash]. rewrite IH.
  destruct (is_slash c); [reflexivity|].
  destruct (str_split_slash a) as [|piece pieces] eqn:E; [|reflexivity].
  exfalso. destruct a as [|c' a]; cbn [str_split_slash] in E; [discriminate|].
  destruct (is_slash c'); [discriminate|].
  destruct (str_split_slash a); discriminate.
Qed.

Lemma str_join_clean (l : list string) :
  Forall (fun piece => has_slash piece = false) l ->
  has_slash (str_join "--" l) = false.
Proof.
  induction l as [|a l IH]; intro H; [reflexivity|].
  inversion H as [|? ? Ha Hl]; subst.
  destruct l as [|b l]; [exact Ha|].
  cbn [str_join]. rewrite !has_slash_app, Ha. cbn [orb].
  change (has_slash "--") with false. cbn [orb]. exact (IH Hl).
Qed.

Lemma Forall_removelast {A : Type} (P : A -> Prop) (l : list A) :
  Forall P l -> Forall P (removelast l).
Proof.
  induction l as [|a l IH]; intro H; [constructor|].
  inversion H as [|? ? Ha Hl]; subst. cbn [removelast].
  destruct l; [constructor|]. constructor; [exact Ha|exact (IH Hl)].
Qed.

Lemma Forall_skipn {A : Type} (P : A -> Prop) (n : nat) (l : list A) :
  Forall P l -> Forall P (skipn n l).
Proof.
  revert l. induction n as [|n IH]; intros l H; [exact H|].
  destruct l as [|a l]; [constructor|].
  inversion H; subst. cbn [skipn]. apply IH. assumption.
Qed.

Lemma str_endswith_app (a suffix : string) :
  str_endswith (a ++ suffix) suffix = true.
Proof.
  induction a as [|c a IH].
  - cbn [String.append]. destruct suffix; cbn [str_endswith];
      rewrite String.eqb_refl; reflexivity.
  - cbn [String.append str_endswith]. rewrite IH. apply orb_true_r.
Qed.

Lemma slice_m3_m1_last3 {A : Type} (l : list A) (a b c : A) :
  slice_m3_m1 (l ++ [a; b; c]) = [a; b].
Proof.
  unfold slice_m3_m1. rewrite length_app. cbn [List.length].
  replace (List.length l + 3 - 3)%nat with (List.length l + 0)%nat by lia.
  rewrite skipn_app, Nat.add_0_r, skipn_all.
  replace (List.length l - List.length l)%nat with 0%nat by lia.
  reflexivity.
Qed.

Lemma str_app_assoc (a b c : string) :
  ((a ++ b) ++ c = a ++ (b ++ c))%string.
Proof.
  induction a as [|x a IH]; [reflexivity|].
  cbn [String.append]. rewrite IH. reflexivity.
Qed.

Lemma str_replace_slash_app (a b : string) :
  str_replace_slash (a ++ b) = (str_replace_slash a ++ str_replace_slash b)%string.
Proof.
  induction a as [|c a IH]; [reflexivity|].
  cbn [String.append str_replace_slash]. rewrite IH.
  destruct (is_slash c); reflexivity.
Qed.

Lemma string_of_uint_clean (d : Decimal.uint) :
  has_slash (NilEmpty.string_of_uint d) = false.
Proof.
  induction d; cbn [NilEmpty.string_of_uint has_slash]; try rewrite IHd;
    reflexivity.
Qed.

Lemma str_of_int_clean (n : Z) : has_slash (str_of_int n) = false.
Proof.
  unfold str_of_int, NilZero.string_of_int.
  destruct (Z.to_int n) as [d|d].
  - destruct d; try reflexivity;
      cbn [NilZero.string_of_uint NilEmpty.string_of_uint has_slash];
      rewrite string_of_uint_clean; reflexivity.
  - cbn [has_slash].
    destruct d; try reflexivity;
      cbn [NilZero.string_of_uint NilEmpty.string_of_uint has_slash];
      rewrite string_of_uint_clean; reflexivity.
Qed.

(** ** [FineTuningDataModule] *)

(** X19. Building a [FineTuningDataModule] fails, with [ValueError],
    exactly when packed-sequence specs with a positive
    [packed_sequence_size] are combined with a micro batch size above 1.
    Without packed-sequence specs it always succeeds, with
    [packed_sequence_size] set to -1.  Every module that was built
    satisfies: if [packed_sequence_size] is positive, the micro batch size
    is at most 1 and the size is the one of the specs it holds. *)
Theorem fine_tuning_init_cases :
  forall (Path : Type) (root : Path) seq_length tokenizer micro_batch_size
         global_batch_size specs,
    (specs = None ->
     FineTuningDataModule.init Path root seq_length tokenizer micro_batch_size
       global_batch_size specs
     = Ok (FineTuningDataModule.mk Path root seq_length tokenizer
             micro_batch_size global_batch_size None (-1)%Z))
    /\ ((exists sp, specs = Some sp
                    /\ (0 < FineTuningDataModule.specs_packed_sequence_size Path sp)%Z
                    /\ (1 < micro_batch_size)%Z)
        <-> FineTuningDataModule.init Path root seq_length tokenizer
              micro_batch_size global_batch_size specs = Raise ValueError)
    /\ (forall e,
        FineTuningDataModule.init Path root seq_length tokenizer
          micro_batch_size global_batch_size specs = Raise e -> e = ValueError)
    /\ (forall self,
        FineTuningDataModule.init Path root seq_length tokenizer
          micro_batch_size global_batch_size specs = Ok self ->
        (0 < FineTuningDataModule.packed_sequence_size Path self)%Z ->
        (FineTuningDataModule.micro_batch_size Path self <= 1)%Z
        /\ exists sp,
             FineTuningDataModule.packed_sequence_specs Path self = Some sp
             /\ FineTuningDataModule.specs_packed_sequence_size Path sp
                = FineTuningDataModule.packed_sequence_size Path self).
Proof.
  intros Path root seq_length tokenizer micro_batch_size global_batch_size specs.
  unfold FineTuningDataModule.init,
    FineTuningDataModule.validate_batch_size_for_packed_sequence.
  cbn [FineTuningDataModule.packed_sequence_size
       FineTuningDataModule.micro_batch_size].
  split; [|split; [|split]].
  - intros ->. reflexivity.
  - destruct specs as [sp|].
    + destruct (Z.ltb_spec 0 (FineTuningDataModule.specs_packed_sequence_size Path sp));
        destruct (Z.ltb_spec 1 micro_batch_size); cbn [andb bind]; split;
        try discriminate; try reflexivity;
        try (intros (sp' & Hsp & H1 & H2); injection Hsp as <-; lia).
      intros _. exists sp. auto.
    + cbn [Z.ltb Z.compare andb bind]. split; [|discriminate].
      intros (sp & Hsp & _). discriminate.
  - intro e.
    destruct ((0 <? match specs with
                    | Some sp => FineTuningDataModule.specs_packed_sequence_size Path sp
                    | None => -1
                    end)%Z && (1 <? micro_batch_size)%Z);
      cbn [bind]; intro H; [|discriminate]. congruence.
  - intros self H Hpos.
    destruct ((0 <? match specs with
                    | Some sp => FineTuningDataModule.specs_packed_sequence_size Path sp
                    | None => -1
                    end)%Z && (1 <? micro_batch_size)%Z) eqn:E;
      cbn [bind] in H; [discriminate|].
    injection H as <-.
    cbn [FineTuningDataModule.packed_sequence_size
         FineTuningDataModule.micro_batch_size
         FineTuningDataModule.packed_sequence_specs] in *.
    destruct specs as [sp|]; [|lia].
    apply andb_false_iff in E as [E|E].
    + apply Z.ltb_ge in E. lia.
    + apply Z.ltb_ge in E. split; [exact E|]. exists sp. auto.
Qed.

Lemma fine_tuning_init_cases_witness :
  FineTuningDataModule.init (list string) ["data"%string] 2048
    (FineTuningDataModule.OtherTokenizer 7) 4 8
    (Some (FineTuningDataModule.mkSpecs (list string) 4096 None None))
  = Raise ValueError.
Proof.
  apply (proj1 (proj2 (fine_tuning_init_cases (list string) ["data"%string]
           2048 (FineTuningDataModule.OtherTokenizer 7) 4 8
           (Some (FineTuningDataModule.mkSpecs (list string) 4096 None None))))).
  exists (FineTuningDataModule.mkSpecs (list string) 4096 None None).
  split; [reflexivity|]. split; reflexivity.
Defined.

(** X20. With packed-sequence specs whose [tokenizer_model_name] is not
    set, [_extract_tokenizer_model_name] always returns a name, and the
    name never contains a slash: it is a single path component, whatever
    the tokenizer. *)
Theorem tokenizer_model_name_is_one_component :
  forall (Path : Type) (self : FineTuningDataModule.t Path) sp,
    FineTuningDataModule.packed_sequence_specs Path self = Some sp ->
    FineTuningDataModule.tokenizer_model_name Path sp = None ->
    exists name,
      FineTuningDataModule._extract_tokenizer_model_name Path self = Ok name
      /\ has_slash name = false.
Proof.
  intros Path self sp Hsp Hname.
  unfold FineTuningDataModule._extract_tokenizer_model_name.
  rewrite Hsp, Hname.
  destruct (FineTuningDataModule.tokenizer Path self) as [name|hash].
  - destruct (str_endswith name "nemo_tokenizer").
    + eexists. split; [reflexivity|].
      apply str_join_clean. apply Forall_removelast, Forall_skipn.
      apply str_split_slash_clean.
    + eexists. split; [reflexivity|]. apply str_replace_slash_clean.
  - eexists. split; [reflexivity|].
    rewrite has_slash_app, str_of_int_clean. reflexivity.
Qed.

Lemma tokenizer_model_name_is_one_component_witness :
  exists name,
    FineTuningDataModule._extract_tokenizer_model_name (list string)
      (FineTuningDataModule.mk (list string) ["data"%string] 2048
         (FineTuningDataModule.AutoTokenizer "meta-llama/Llama-2-7b") 1 8
         (Some (FineTuningDataModule.mkSpecs (list string) 4096 None None))
         4096)
    = Ok name
    /\ has_slash name = false.
Proof.
  apply (tokenizer_model_name_is_one_component (list string)
           (FineTuningDataModule.mk (list string) ["data"%string] 2048
              (FineTuningDataModule.AutoTokenizer "meta-llama/Llama-2-7b") 1 8
              (Some (FineTuningDataModule.mkSpecs (list string) 4096 None None))
              4096)
           (FineTuningDataModule.mkSpecs (list string) 4096 None None));
    reflexivity.
Defined.

(** X21. The two documented forms of an [AutoTokenizer] name.  A name
    [.../hf_org/hf_model/nemo_tokenizer] gives [hf_org--hf_model], the two
    components before the last one, whatever precedes them; a name
    [hf_org/hf_model] that does not end in [nemo_tokenizer] gives
    [hf_org--hf_model] as well.  A [tokenizer_model_name] set in the specs
    overrides both. *)
Theorem tokenizer_model_name_documented_forms :
  forall (Path : Type) (self : FineTuningDataModule.t Path) sp org model,
    FineTuningDataModule.packed_sequence_specs Path self = Some sp ->
    has_slash org = false ->
    has_slash model = false ->
    (forall name,
        FineTuningDataModule.tokenizer_model_name Path sp = Some name ->
        FineTuningDataModule._extract_tokenizer_model_name Path self = Ok name)
    /\ (forall home,
        FineTuningDataModule.tokenizer_model_name Path sp = None ->
        FineTuningDataModule.tokenizer Path self
        = FineTuningDataModule.AutoTokenizer
            (home ++ "/" ++ org ++ "/" ++ model ++ "/nemo_tokenizer") ->
        FineTuningDataModule._extract_tokenizer_model_name Path self
        = Ok (org ++ "--" ++ model)%string)
    /\ (FineTuningDataModule.tokenizer_model_name Path sp = None ->
        FineTuningDataModule.tokenizer Path self
        = FineTuningDataModule.AutoTokenizer (org ++ "/" ++ model) ->
        str_endswith (org ++ "/" ++ model) "nemo_tokenizer" = false ->
        FineTuningDataModule._extract_tokenizer_model_name Path self
        = Ok (org ++ "--" ++ model)%string).
Proof.
  intros Path self sp org model Hsp Horg Hmodel.
  unfold FineTuningDataModule._extract_tokenizer_model_name. rewrite Hsp.
  split; [|split].
  - intros name ->. reflexivity.
  - intros home -> ->.
    replace (home ++ "/" ++ org ++ "/" ++ model ++ "/nemo_tokenizer")%string
      with ((home ++ "/" ++ org ++ "/" ++ model ++ "/") ++ "nemo_tokenizer")%string.
    2:{ rewrite !str_app_assoc. reflexivity. }
    rewrite str_endswith_app.
    replace ((home ++ "/" ++ org ++ "/" ++ model ++ "/") ++ "nemo_tokenizer")%string
      with (home ++ String "/" (org ++ String "/" (model ++ String "/" "nemo_tokenizer")))%string.
    2:{ rewrite !str_app_assoc. reflexivity. }
    rewrite !str_split_slash_app.
    rewrite (str_split_slash_id org Horg), (str_split_slash_id model Hmodel).
    change (str_split_slash "nemo_tokenizer") with ["nemo_tokenizer"%string].
    cbn [app]. rewrite slice_m3_m1_last3. reflexivity.
  - intros -> -> ->.
    rewrite !str_replace_slash_app.
    rewrite (str_replace_slash_id org Horg), (str_replace_slash_id model Hmodel).
    reflexivity.
Qed.

Lemma tokenizer_model_name_documented_forms_witness :
  FineTuningDataModule._extract_tokenizer_model_name (list string)
    (FineTuningDataModule.mk (list string) ["data"%string] 2048
       (FineTuningDataModule.AutoTokenizer
          "/home/nemo/meta-llama/Llama-2-7b/nemo_tokenizer") 1 8
       (Some (FineTuningDataModule.mkSpecs (list string) 4096 None None)) 4096)
  = Ok "meta-llama--Llama-2-7b"%string.
Proof.
  apply (proj1 (proj2 (tokenizer_model_name_documented_forms (list string)
           (FineTuningDataModule.mk (list string) ["data"%string] 2048
              (FineTuningDataModule.AutoTokenizer
                 "/home/nemo/meta-llama/Llama-2-7b/nemo_tokenizer") 1 8
              (Some (FineTuningDataModule.mkSpecs (list string) 4096 None None))
              4096)
           (FineTuningDataModule.mkSpecs (list string) 4096 None None)
           "meta-llama" "Llama-2-7b" eq_refl eq_refl eq_refl))
           "/home/nemo"%string); reflexivity.
Defined.

(** X22. A name ending in [nemo_tokenizer] with fewer than three
    components loses information: a name without any slash that ends in
    [nemo_tokenizer] gives the empty string, and [model/nemo_tokenizer]
    gives [model] alone. *)
Theorem tokenizer_model_name_short_paths :
  forall (Path : Type) (self : FineTuningDataModule.t Path) sp,
    FineTuningDataModule.packed_sequence_specs Path self = Some sp ->
    FineTuningDataModule.tokenizer_model_name Path sp = None ->
    (forall name,
        has_slash name = false ->
        str_endswith name "nemo_tokenizer" = true ->
        FineTuningDataModule.tokenizer Path self
        = FineTuningDataModule.AutoTokenizer name ->
        FineTuningDataModule._extract_tokenizer_model_name Path self
        = Ok EmptyString)
    /\ (forall model,
        has_slash model = false ->
        FineTuningDataModule.tokenizer Path self
        = FineTuningDataModule.AutoTokenizer (model ++ "/nemo_tokenizer") ->
        FineTuningDataModule._extract_tokenizer_model_name Path self
        = Ok model).
Proof.
  intros Path self sp Hsp Hname.
  unfold FineTuningDataModule._extract_tokenizer_model_name.
  rewrite Hsp, Hname. split.
  - intros name Hclean Hends ->. rewrite Hends.
    rewrite (str_split_slash_id name Hclean). reflexivity.
  - intros model Hclean ->.
    change (model ++ "/nemo_tokenizer")%string
      with (model ++ String "/" "nemo_tokenizer")%string.
    rewrite str_split_slash_app, (str_split_slash_id model Hclean).
    replace (model ++ String "/" "nemo_tokenizer")%string
      with ((model ++ "/") ++ "nemo_tokenizer")%string
      by (rewrite !str_app_assoc; reflexivity).
    rewrite str_endswith_app. reflexivity.
Qed.

Lemma tokenizer_model_name_short_paths_witness :
  FineTuningDataModule._extract_tokenizer_model_name (list string)
    (FineTuningDataModule.mk (list string) ["data"%string] 2048
       (FineTuningDataModule.AutoTokenizer "my_nemo_tokenizer") 1 8
       (Some (FineTuningDataModule.mkSpecs (list string) 4096 None None)) 4096)
  = Ok EmptyString.
Proof.
  apply (proj1 (tokenizer_model_name_short_paths (list string)
           (FineTuningDataModule.mk (list string) ["data"%string] 2048
              (FineTuningDataModule.AutoTokenizer "my_nemo_tokenizer") 1 8
              (Some (FineTuningDataModule.mkSpecs (list string) 4096 None None))
              4096)
           (FineTuningDataModule.mkSpecs (list string) 4096 None None)
           eq_refl eq_refl) "my_nemo_tokenizer"%string); reflexivity.
Defined.

(** A module that was built holds the specs its packed size comes from. *)
Lemma fine_tuning_init_inv (Path : Type) (root : Path) (seq_length : Z)
    (tokenizer : FineTuningDataModule.Tokenizer)
    (micro_batch_size global_batch_size : Z)
    (specs : option (FineTuningDataModule.PackedSequenceSpecs Path))
    (self : FineTuningDataModule.t Path) :
  FineTuningDataModule.init Path root seq_length tokenizer micro_batch_size
    global_batch_size specs = Ok self ->
  self = FineTuningDataModule.mk Path root seq_length tokenizer
           micro_batch_size global_batch_size specs
           match specs with
           | None => (-1)%Z
           | Some sp => FineTuningDataModule.specs_packed_sequence_size Path sp
           end.
Proof.
  unfold FineTuningDataModule.init. intro H.
  destruct (FineTuningDataModule.validate_batch_size_for_packed_sequence Path _);
    [|discriminate].
  cbn [bind] in H. congruence.
Qed.

(** X23. For every [FineTuningDataModule] that was built, the dataset of
    [train_dataloader] is always defined: the [ValueError] of
    [train_path_packed] is raised exactly when [packed_sequence_size] is
    not positive, and then [train_dataloader] reads [training.jsonl] under
    the dataset root with [seq_length] and does not touch it.  When
    sequences are packed, training uses [packed_sequence_size] as the
    sequence length and reads the [packed_data_path] of the specs when it
    is set, and otherwise the file
    [packed/<tokenizer model name>/training_<size>.npy] under the dataset
    root, whose folder [train_path_packed] creates.  Validation and test
    always use [seq_length]. *)
Theorem fine_tuning_datasets :
  forall (Path : Type) (joinpath : Path -> string -> Path) (root : Path)
         seq_length tokenizer micro_batch_size global_batch_size specs self,
    FineTuningDataModule.init Path root seq_length tokenizer micro_batch_size
      global_batch_size specs = Ok self ->
    ((FineTuningDataModule.packed_sequence_size Path self <= 0)%Z <->
     FineTuningDataModule.train_path_packed Path joinpath self
     = Raise ValueError)
    /\ ((FineTuningDataModule.packed_sequence_size Path self <= 0)%Z ->
        FineTuningDataModule.train_dataset Path joinpath self
        = Ok (joinpath root "training.jsonl"%string, seq_length))
    /\ ((0 < FineTuningDataModule.packed_sequence_size Path self)%Z ->
        exists sp,
          specs = Some sp
          /\ (forall pd,
                FineTuningDataModule.packed_data_path Path sp = Some pd ->
                FineTuningDataModule.train_path_packed Path joinpath self
                = Ok (pd, None)
                /\ FineTuningDataModule.train_dataset Path joinpath self
                   = Ok (pd, FineTuningDataModule.packed_sequence_size Path self))
          /\ (FineTuningDataModule.packed_data_path Path sp = None ->
              exists name,
                FineTuningDataModule._extract_tokenizer_model_name Path self
                = Ok name
                /\ FineTuningDataModule.train_path_packed Path joinpath self
                   = Ok (joinpath
                           (joinpath (joinpath root "packed"%string) name)
                           ("training_"
                            ++ str_of_int
                                 (FineTuningDataModule.packed_sequence_size Path self)
                            ++ ".npy")%string,
                         Some (joinpath (joinpath root "packed"%string) name))
                /\ FineTuningDataModule.train_dataset Path joinpath self
                   = Ok (joinpath
                           (joinpath (joinpath root "packed"%string) name)
                           ("training_"
                            ++ str_of_int
                                 (FineTuningDataModule.packed_sequence_size Path self)
                            ++ ".npy")%string,
                         FineTuningDataModule.packed_sequence_size Path self)))
    /\ FineTuningDataModule.val_dataset Path joinpath self
       = (joinpath root "validation.jsonl"%string, seq_length)
    /\ FineTuningDataModule.test_dataset Path joinpath self
       = (joinpath root "test.jsonl"%string, seq_length).
Proof.
  intros Path joinpath root seq_length tokenizer micro_batch_size
    global_batch_size specs self Hinit.
  rewrite (fine_tuning_init_inv _ _ _ _ _ _ _ _ Hinit).
  unfold FineTuningDataModule.train_dataset,
    FineTuningDataModule.train_path_packed,
    FineTuningDataModule._extract_tokenizer_model_name,
    FineTuningDataModule.val_dataset, FineTuningDataModule.test_dataset,
    FineTuningDataModule._create_dataset, FineTuningDataModule.train_path,
    FineTuningDataModule.validation_path, FineTuningDataModule.test_path.
  cbn [FineTuningDataModule.packed_sequence_size
       FineTuningDataModule.packed_sequence_specs
       FineTuningDataModule.dataset_root FineTuningDataModule.seq_length
       FineTuningDataModule.tokenizer orb].
  destruct specs as [sp|].
  - set (pss := FineTuningDataModule.specs_packed_sequence_size Path sp).
    destruct (Z.ltb_spec 0 pss) as [Hpos|Hneg];
      destruct (Z.leb_spec pss 0) as [Hle|Hgt]; try lia.
    + split; [split; [lia|]|].
      { destruct (FineTuningDataModule.packed_data_path Path sp);
          [discriminate|].
        destruct (FineTuningDataModule.tokenizer_model_name Path sp);
          [discriminate|].
        destruct tokenizer as [name|hash];
          [destruct (str_endswith name "nemo_tokenizer")|]; discriminate. }
      split; [lia|]. split; [|split; reflexivity].
      intros _. exists sp. split; [reflexivity|]. split.
      * intros pd ->. cbn [bind]. split; reflexivity.
      * intros ->.
        destruct (FineTuningDataModule.tokenizer_model_name Path sp) as [nm|];
          [|destruct tokenizer as [name|hash];
            [destruct (str_endswith name "nemo_tokenizer")|]];
          cbn [bind]; eexists; (split; [reflexivity|]); split; reflexivity.
    + split; [split; [reflexivity|lia]|].
      split; [reflexivity|]. split; [lia|]. split; reflexivity.
  - cbn [Z.ltb Z.leb Z.compare bind].
    split; [split; [reflexivity|lia]|].
    split; [reflexivity|]. split; [lia|]. split; reflexivity.
Qed.

Lemma fine_tuning_datasets_witness :
  FineTuningDataModule.train_dataset (list string)
    (fun p c => (p ++ [c])%list)
    (FineTuningDataModule.mk (list string) ["data"%string] 2048
       (FineTuningDataModule.OtherTokenizer 7) 4 8 None (-1)%Z)
  = Ok (["data"%string; "training.jsonl"%string], 2048%Z)
  /\ exists sp,
       Some (FineTuningDataModule.mkSpecs (list string) 4096 None None)
       = Some sp
       /\ (FineTuningDataModule.packed_data_path (list string) sp = None ->
           exists name,
             FineTuningDataModule._extract_tokenizer_model_name (list string)
               (FineTuningDataModule.mk (list string) ["data"%string] 2048
                  (FineTuningDataModule.AutoTokenizer "meta-llama/Llama-2-7b")
                  1 8
                  (Some (FineTuningDataModule.mkSpecs (list string) 4096 None
                           None)) 4096)
             = Ok name
             /\ FineTuningDataModule.train_dataset (list string)
                  (fun p c => (p ++ [c])%list)
                  (FineTuningDataModule.mk (list string) ["data"%string] 2048
                     (FineTuningDataModule.AutoTokenizer
                        "meta-llama/Llama-2-7b") 1 8
                     (Some (FineTuningDataModule.mkSpecs (list string) 4096
                              None None)) 4096)
                = Ok (((["data"%string] ++ ["packed"%string]) ++ [name])
                      ++ [("training_" ++ str_of_int 4096 ++ ".npy")%string],
                      4096%Z)).
Proof.
  split.
  - apply (proj1 (proj2 (fine_tuning_datasets (list string)
             (fun p c => (p ++ [c])%list) ["data"%string] 2048
             (FineTuningDataModule.OtherTokenizer 7) 4 8 None
             (FineTuningDataModule.mk (list string) ["data"%string] 2048
                (FineTuningDataModule.OtherTokenizer 7) 4 8 None (-1)%Z)
             eq_refl))).
    discriminate.
  - destruct (proj1 (proj2 (proj2 (fine_tuning_datasets (list string)
               (fun p c => (p ++ [c])%list) ["data"%string] 2048
               (FineTuningDataModule.AutoTokenizer "meta-llama/Llama-2-7b")
               1 8
               (Some (FineTuningDataModule.mkSpecs (list string) 4096 None None))
               (FineTuningDataModule.mk (list string) ["data"%string] 2048
                  (FineTuningDataModule.AutoTokenizer "meta-llama/Llama-2-7b")
                  1 8
                  (Some (FineTuningDataModule.mkSpecs (list string) 4096 None
                           None)) 4096)
               eq_refl))) eq_refl) as (sp & Hsp & _ & Hnone).
    exists sp. split; [exact Hsp|]. intro Hpd.
    destruct (Hnone Hpd) as (name & Hname & _ & Hds).
    exists name. split; [exact Hname|exact Hds].
Defined.

(** ** [tokenize] and [tokenize_with_prompt] *)

Lemma tokenize_supervision_idem (tokenizer : string -> option string -> list Z)
    (s : Tokenization.TextSupervision) :
  Tokenization.tokenize_supervision tokenizer
    (Tokenization.tokenize_supervision tokenizer s)
  = Tokenization.tokenize_supervision tokenizer s.
Proof.
  unfold Tokenization.tokenize_supervision.
  destruct (Tokenization.sup_text s) as [t|] eqn:E.
  - reflexivity.
  - rewrite E. reflexivity.
Qed.

(** X24. [tokenize] fails only on an example that is neither a cut, a
    text example nor a text pair.  Tokenizing twice gives the same example
    as tokenizing once. *)
Theorem tokenize_idempotent :
  forall tokenizer example,
    (forall e, Tokenization.tokenize tokenizer example = Raise e ->
               exists type_name, example = Tokenization.RawOther type_name)
    /\ (forall example',
        Tokenization.tokenize tokenizer example = Ok example' ->
        Tokenization.tokenize tokenizer example' = Ok example').
Proof.
  intros tokenizer example. split.
  - intros e H. destruct example as [c|t|src tgt|name]; try discriminate.
    eauto.
  - intros example' H.
    destruct example as [c|t|src tgt|name]; cbn [Tokenization.tokenize] in H;
      try discriminate; injection H as <-; cbn [Tokenization.tokenize];
      try reflexivity.
    cbn [Tokenization.cut_duration Tokenization.cut_supervisions
         Tokenization.cut_num_tokens
         Tokenization.cut_tokenized_prompted_transcript
         Tokenization.cut_tokenized_prompt
         Tokenization.cut_tokenized_transcript].
    rewrite map_map.
    rewrite (map_ext _ _ (tokenize_supervision_idem tokenizer)).
    reflexivity.
Qed.

Lemma tokenize_idempotent_witness :
  Tokenization.tokenize (fun t _ => [Z.of_nat (String.length t)])
    (Tokenization.RawTextExample
       (Tokenization.mkText "hello" None (Some [5%Z])))
  = Ok (Tokenization.RawTextExample
          (Tokenization.mkText "hello" None (Some [5%Z]))).
Proof.
  apply (proj2 (tokenize_idempotent
           (fun t _ => [Z.of_nat (String.length t)])
           (Tokenization.RawTextExample (Tokenization.mkText "hello" None None)))).
  reflexivity.
Defined.

(** X25. [tokenize] on a text pair tokenizes the source text twice: the
    tokens stored on the target are those of the source text under the
    target's language, so they do not depend on the target text at all. *)
Theorem tokenize_pair_target_from_source_text :
  forall tokenizer source target target_text',
    exists source' target' target'',
      Tokenization.tokenize tokenizer
        (Tokenization.RawTextPairExample source target)
      = Ok (Tokenization.RawTextPairExample source' target')
      /\ Tokenization.tokenize tokenizer
           (Tokenization.RawTextPairExample source
              (Tokenization.mkText target_text'
                 (Tokenization.language target) (Tokenization.tokens target)))
         = Ok (Tokenization.RawTextPairExample source' target'')
      /\ Tokenization.tokens target'
         = Some (tokenizer (Tokenization.text source)
                   (Tokenization.language target))
      /\ Tokenization.tokens target'' = Tokenization.tokens target'
      /\ Tokenization.text target' = Tokenization.text target
      /\ Tokenization.tokens source'
         = Some (tokenizer (Tokenization.text source)
                   (Tokenization.language source)).
Proof.
  intros tokenizer source target target_text'.
  do 3 eexists. cbn [Tokenization.tokenize Tokenization.text
                     Tokenization.language Tokenization.tokens].
  repeat split; reflexivity.
Qed.

(** The token lists of the supervisions that have some, after
    tokenization. *)
Lemma tokenized_supervisions_with_tokens
    (tokenizer : string -> option string -> list Z)
    (sups : list Tokenization.TextSupervision) :
  Exists (fun s => Tokenization.sup_text s <> None) sups ->
  supervisions_with_tokens
    (map Tokenization.view_supervision
       (map (Tokenization.tokenize_supervision tokenizer) sups)) <> [].
Proof.
  induction 1 as [s sups Hs|s sups _ IH].
  - cbn [map supervisions_with_tokens flat_map].
    unfold Tokenization.tokenize_supervision.
    destruct (Tokenization.sup_text s) as [t|]; [|congruence].
    cbn [Tokenization.view_supervision Tokenization.sup_tokens tokens app].
    discriminate.
  - cbn [map supervisions_with_tokens flat_map].
    intro H. apply app_eq_nil in H as [_ H]. exact (IH H).
Qed.

(** X26. After [tokenize], a cut that has at least one supervision with a
    text can be measured: [_measure_tokens] returns a count instead of
    failing on untokenized supervisions, and so does [_measure_tps] when
    the duration is not zero.  The duration of the cut and the number of
    its supervisions are unchanged. *)
Theorem tokenize_then_measure_tokens :
  forall tokenizer c,
    Exists (fun s => Tokenization.sup_text s <> None)
      (Tokenization.cut_supervisions c) ->
    exists c',
      Tokenization.tokenize tokenizer (Tokenization.RawCut c)
      = Ok (Tokenization.RawCut c')
      /\ Tokenization.cut_duration c' = Tokenization.cut_duration c
      /\ List.length (Tokenization.cut_supervisions c')
         = List.length (Tokenization.cut_supervisions c)
      /\ (exists n, _measure_tokens (Audio (Tokenization.view_cut c')) = Ok n)
      /\ (~ Tokenization.cut_duration c == 0 ->
          exists tps, _measure_tps (Audio (Tokenization.view_cut c')) = Ok tps).
Proof.
  intros tokenizer c Hex. eexists. split; [reflexivity|].
  cbn [Tokenization.cut_duration Tokenization.cut_supervisions].
  split; [reflexivity|]. split; [apply length_map|].
  assert (Hn : exists n,
             _measure_tokens
               (Audio (Tokenization.view_cut
                  (Tokenization.mkTextCut (Tokenization.cut_duration c)
                     (map (Tokenization.tokenize_supervision tokenizer)
                        (Tokenization.cut_supervisions c))
                     (Tokenization.cut_num_tokens c)
                     (Tokenization.cut_tokenized_prompted_transcript c)
                     (Tokenization.cut_tokenized_prompt c)
                     (Tokenization.cut_tokenized_transcript c)))) = Ok n).
  { unfold _measure_tokens, Tokenization.view_cut.
    cbn [tokenized_prompted_transcript supervisions
         Tokenization.cut_tokenized_prompted_transcript
         Tokenization.cut_supervisions].
    destruct (Tokenization.cut_tokenized_prompted_transcript c) as [t|];
      [eauto|].
    pose proof (tokenized_supervisions_with_tokens tokenizer _ Hex) as Hne.
    destruct (supervisions_with_tokens _) as [|t ts]; [congruence|].
    cbn [List.length Nat.ltb Nat.leb py_assert bind]. eauto. }
  split; [exact Hn|].
  intro Hd. destruct Hn as (n & Hn). unfold _measure_tps. rewrite Hn.
  cbn [bind get_duration Tokenization.view_cut duration
       Tokenization.cut_duration].
  unfold py_truediv.
  apply Qeq_bool_false_iff in Hd. rewrite Hd. eauto.
Qed.

Lemma tokenize_then_measure_tokens_witness :
  exists c',
    Tokenization.tokenize (fun t _ => [Z.of_nat (String.length t)])
      (Tokenization.RawCut
         (Tokenization.mkTextCut 2
            [Tokenization.mkTextSupervision (Some "hi"%string) None None]
            None None None None))
    = Ok (Tokenization.RawCut c')
    /\ (exists n, _measure_tokens (Audio (Tokenization.view_cut c')) = Ok n).
Proof.
  destruct (tokenize_then_measure_tokens
              (fun t _ => [Z.of_nat (String.length t)])
              (Tokenization.mkTextCut 2
                 [Tokenization.mkTextSupervision (Some "hi"%string) None None]
                 None None None None))
    as (c' & Hc & _ & _ & Hn & _).
  - constructor. discriminate.
  - exists c'. split; [exact Hc|exact Hn].
Defined.


